(** * User accounts of the coffeecartel backend: services/userService.mjs and routes/user.mjs

    The two source modules are embedded as executable Rocq functions:
    - JavaScript values the code inspects (strings, [undefined], object literals,
      thrown errors) are given small inductive types;
    - an [async] function is a state-passing computation over the user table that
      either resolves with a value or rejects with an error ([try]/[catch] is
      [try_catch]);
    - the collaborators imported from files outside the two modules
      (hashPassword, comparePasswords, jwt.sign, the validation schemas) are
      Section variables, so every theorem holds for all of them. *)

From Stdlib Require Import Ascii String List Bool NArith.
From stdpp Require Import base list strings.
Import ListNotations.
Local Open Scope string_scope.

(** ** JavaScript values *)

(** A property read gives a string or [undefined]; every column of the user
    table and every request field is a string. *)
Inductive JsVal :=
| VStr (s : string)
| VUndefined.

(** An object literal, keys in the order they are written. *)
Definition JsObj := list (string * JsVal).

(** [o.k]: the first binding of [k], [undefined] when there is none. *)
Fixpoint get (o : JsObj) (k : string) : JsVal :=
  match o with
  | [] => VUndefined
  | (k', v) :: o' => if String.eqb k' k then v else get o' k
  end.

Definition keys (o : JsObj) : list string := map fst o.

(** Truthiness, as [&&] and [if] test it: [undefined] and the empty string are falsy. *)
Definition truthy (v : JsVal) : bool :=
  match v with
  | VStr s => negb (String.eqb s "")
  | VUndefined => false
  end.

(** [v === s] for a string literal [s]. *)
Definition strict_eq (v : JsVal) (s : string) : bool :=
  match v with
  | VStr s' => String.eqb s' s
  | VUndefined => false
  end.

(** A thrown error: the three properties the code reads. [fields] is set by
    Sequelize on a unique constraint error and is [undefined] otherwise. *)
Record JsError := mkError {
  name : string;
  message : string;
  fields : option JsObj
}.

(** [new Error(msg)] *)
Definition Error (msg : string) : JsError :=
  {| name := "Error"; message := msg; fields := None |}.

(** Reading an identifier that is bound nowhere in scope. *)
Definition ReferenceError (ident : string) : JsError :=
  {| name := "ReferenceError"; message := ident ++ " is not defined"; fields := None |}.

(** [error.fields && error.fields.k] used as a condition. *)
Definition fields_has (error : JsError) (k : string) : bool :=
  match fields error with
  | Some o => truthy (get o k)
  | None => false
  end.

(** A promise that has settled. *)
Inductive result (A : Type) :=
| Resolved (a : A)
| Rejected (e : JsError).
Arguments Resolved {A} a.
Arguments Rejected {A} e.

(** A function that returns a value or [false]. *)
Inductive OrFalse (A : Type) :=
| Val (a : A)
| JsFalse.
Arguments Val {A} a.
Arguments JsFalse {A}.

(** ** The user table *)

(** Columns of the user table, as [registerUser] writes them. *)
Record User := mkUser {
  role : string;
  username : string;
  hashed_password : string;
  fname : string;
  lname : string;
  email : string;
  address : string
}.

(** A model instance returned by [findOne]: the row it was read from and its
    column values, which the caller may assign to before [save]. *)
Record Instance := mkInstance {
  pk : nat;
  data : User
}.

(** The database: the rows of the user table (a row's position is its primary
    key) and the faults still to come, one entry per query: [Some e] makes the
    next query reject with [e] and leaves the table as it was. *)
Record Db := mkDb {
  rows : list User;
  faults : list (option JsError)
}.

(** ** Async computations over the database *)

Definition Async (A : Type) : Type := Db -> result A * Db.

Definition ret {A} (a : A) : Async A := fun db => (Resolved a, db).

Definition throw {A} (e : JsError) : Async A := fun db => (Rejected e, db).

Definition bind {A B} (c : Async A) (k : A -> Async B) : Async B :=
  fun db =>
    match c db with
    | (Resolved a, db') => k a db'
    | (Rejected e, db') => (Rejected e, db')
    end.

(** [await p] for a promise that does not touch the table. *)
Definition await {A} (p : result A) : Async A := fun db => (p, db).

(** [try { c } catch (error) { h error }] *)
Definition try_catch {A} (c : Async A) (h : JsError -> Async A) : Async A :=
  fun db =>
    match c db with
    | (Resolved a, db') => (Resolved a, db')
    | (Rejected e, db') => h e db'
    end.

Declare Scope async_scope.
Delimit Scope async_scope with async.
Notation "x <- c ;; k" := (bind c (fun x => k))
  (at level 100, c at next level, right associativity) : async_scope.
Local Open Scope async_scope.

(** One query: it takes the next fault, if any, or runs on the rows. *)
Definition query {A} (op : list User -> result A * list User) : Async A :=
  fun db =>
    match faults db with
    | Some e :: fs => (Rejected e, {| rows := rows db; faults := fs |})
    | None :: fs =>
        let (r, rs) := op (rows db) in (r, {| rows := rs; faults := fs |})
    | [] =>
        let (r, rs) := op (rows db) in (r, {| rows := rs; faults := [] |})
    end.

(** ** UserModel *)

Module UserModel.

(** [UserModel.findOne({ where: { username } })]: the first row with that
    username, or [null]. *)
Definition findOne (username0 : string) : Async (option Instance) :=
  query (fun rs =>
    (Resolved
       (match list_find (fun u => username u = username0) rs with
        | Some (i, u) => Some {| pk := i; data := u |}
        | None => None
        end), rs)).

(** The error Sequelize raises when a unique index rejects an insert. *)
Definition UniqueConstraintError (fs : JsObj) : JsError :=
  {| name := "SequelizeUniqueConstraintError";
     message := "Validation error";
     fields := Some fs |}.

(** Modelled from the spec: the model definition (models/userModel.mjs) is not
    among the sources. Per the persistence contract, [username] and [email]
    are each unique; an insert that would repeat one of them fails without a
    partial record, naming the column, and any other insert appends the row. *)
Definition create (u : User) : Async unit :=
  query (fun rs =>
    if existsb (fun r => String.eqb (username r) (username u)) rs then
      (Rejected (UniqueConstraintError [("username", VStr (username u))]), rs)
    else if existsb (fun r => String.eqb (email r) (email u)) rs then
      (Rejected (UniqueConstraintError [("email", VStr (email u))]), rs)
    else (Resolved tt, (rs ++ [u])%list)).

(** [user.save()]: writes the instance's columns to its row. *)
Definition save (user : Instance) : Async unit :=
  query (fun rs => (Resolved tt, <[pk user := data user]> rs)).

End UserModel.

(** Assignments to the three columns [updateUserProfile] writes on an instance. *)
Definition assign_fname (user : Instance) (v : string) : Instance :=
  let u := data user in
  {| pk := pk user;
     data := mkUser (role u) (username u) (hashed_password u) v (lname u) (email u) (address u) |}.

Definition assign_lname (user : Instance) (v : string) : Instance :=
  let u := data user in
  {| pk := pk user;
     data := mkUser (role u) (username u) (hashed_password u) (fname u) v (email u) (address u) |}.

Definition assign_address (user : Instance) (v : string) : Instance :=
  let u := data user in
  {| pk := pk user;
     data := mkUser (role u) (username u) (hashed_password u) (fname u) (lname u) (email u) v |}.

(** [user.col] where [user] is an instance or [false]: a property read on
    [false] gives [undefined]. *)
Definition prop (user : OrFalse Instance) (col : User -> string) : JsVal :=
  match user with
  | Val i => VStr (col (data i))
  | JsFalse => VUndefined
  end.

(** The object literal [{ role: user.role, username: user.username, fname:
    user.fname, lname: user.lname, email: user.email, address: user.address }],
    written out at user.mjs lines 48-55, 61-68 and 161-168. *)
Definition userData (user : OrFalse Instance) : JsObj :=
  [ ("role", prop user role);
    ("username", prop user username);
    ("fname", prop user fname);
    ("lname", prop user lname);
    ("email", prop user email);
    ("address", prop user address) ].

(** ** services/userService.mjs *)

Section Services.

(** utils/hashPassword.mjs and utils/comparePasswords.mjs are not among the
    sources: both are async and may reject. A call of the salted hasher is
    one application of [hashPassword]; the theorems hold for every such
    function. *)
Variable hashPassword : string -> result string.
Variable comparePasswords : string -> string -> result bool.

Definition loginUser (username password : string) : Async (OrFalse Instance) :=
  try_catch
    (user <- UserModel.findOne username ;;
     match user with
     | None => ret JsFalse
     | Some user =>
         isMatch <- await (comparePasswords (hashed_password (data user)) password) ;;
         if isMatch then ret (Val user) else ret JsFalse
     end)
    (fun error => throw (Error "Error logging in")).

Definition registerUser (username password fname lname email address : string)
  : Async unit :=
  try_catch
    (hashedPassword <- await (hashPassword password) ;;
     UserModel.create (mkUser "user" username hashedPassword fname lname email address))
    (fun error =>
       if String.eqb (name error) "SequelizeUniqueConstraintError" then
         if fields_has error "username" then
           throw (Error "Username already exists")
         else if fields_has error "email" then
           throw (Error "Email already exists")
         else
           throw (Error "Username or email already exists")
       else
         throw (Error "Error registering user")).

Definition updateUserProfile (username firstname lastname address : string)
  : Async (OrFalse Instance) :=
  try_catch
    (user <- UserModel.findOne username ;;
     match user with
     | Some user =>
         let user := assign_fname user firstname in
         let user := assign_lname user lastname in
         let user := assign_address user address in
         _ <- UserModel.save user ;;
         ret (Val user)
     | None => ret JsFalse
     end)
    (fun error => throw (Error "Error updating profile")).

End Services.

(** ** routes/user.mjs *)

(** The process environment, and [process.env.K]. *)
Definition Env := list (string * string).

Fixpoint getenv (env : Env) (k : string) : option string :=
  match env with
  | [] => None
  | (k', v) :: env' => if String.eqb k' k then Some v else getenv env' k
  end.

(** What the module binds when it is loaded. *)
Record RouterModule := mkRouterModule {
  secretKey : option string
}.

(** Loading the module: line 22 reads the variable and nothing else looks at it. *)
Definition load (env : Env) : result RouterModule :=
  Resolved {| secretKey := getenv env "SECRET_KEY" |}.

(** Request bodies, after [checkSchema] has run. *)
Record LoginBody := mkLoginBody {
  login_username : string;
  login_password : string
}.

Record RegisterBody := mkRegisterBody {
  reg_firstname : string;
  reg_lastname : string;
  reg_email : string;
  reg_address : string;
  reg_username : string;
  reg_confirmPassword : string
}.

Record UpdateBody := mkUpdateBody {
  upd_username : string;
  upd_firstname : string;
  upd_lastname : string;
  upd_address : string
}.

(** What a handler passes to [res.json], one constructor per shape. *)
Inductive Response (Token : Type) :=
| ErrorResponse (status : nat) (error : string)
| MsgResponse (status : nat) (msg : string)
| LoginResponse (status : nat) (token : Token) (user : JsObj)
| UpdateResponse (status : nat) (msg : string) (token : Token) (userData : JsObj)
| ProtectedResponse (status : nat) (user : JsObj).
Arguments ErrorResponse {Token} status error.
Arguments MsgResponse {Token} status msg.
Arguments LoginResponse {Token} status token user.
Arguments UpdateResponse {Token} status msg token userData.
Arguments ProtectedResponse {Token} status user.

Section Routes.

Variable hashPassword : string -> result string.
Variable comparePasswords : string -> string -> result bool.

(** [jwt.sign(payload, secret)] of the jsonwebtoken package: it returns a
    token or throws; the secret is whatever [process.env] held. *)
Variable Token : Type.
Variable jwt_sign : JsObj -> option string -> result Token.

(** schema/userValidation.mjs is not among the sources: each schema is the
    test [validationResult(req).isEmpty()] on the request body. *)
Variable loginValidation : LoginBody -> bool.
Variable registerValidation : RegisterBody -> bool.
Variable updateValidation : UpdateBody -> bool.

Variable module : RouterModule.

Definition validation_failed : Response Token :=
  ErrorResponse 400 "Validation failed. Please check your inputs".

(** [router.post("/login", ...)] *)
Definition login_route (body : LoginBody) : Async (Response Token) :=
  try_catch
    (if negb (loginValidation body) then ret validation_failed
     else
       user <- loginUser comparePasswords (login_username body) (login_password body) ;;
       let isValid :=
         strict_eq (prop user role) "admin" || strict_eq (prop user role) "user" in
       if isValid then
         token <- await (jwt_sign (userData user) (secretKey module)) ;;
         ret (LoginResponse 200 token (userData user))
       else
         ret (ErrorResponse 401 "Invalid username or password"))
    (fun error => ret (ErrorResponse 500 "Internal server error")).

(** [router.post("/register", ...)] *)
Definition register_route (body : RegisterBody) : Async (Response Token) :=
  try_catch
    (if negb (registerValidation body) then ret validation_failed
     else
       _ <- registerUser hashPassword
              (reg_username body) (reg_confirmPassword body)
              (reg_firstname body) (reg_lastname body)
              (reg_email body) (reg_address body) ;;
       ret (MsgResponse 201 "Account created successfully"))
    (fun error =>
       let errorMessage := "Internal server error" in
       if String.eqb (message error) "Username already exists"
          || String.eqb (message error) "Email already exists"
          || String.eqb (message error) "Email or username already exists"
       then
         let errorMessage := message error in
         ret (ErrorResponse 401 errorMessage)
       else
         ret (ErrorResponse 500 errorMessage)).

(** [router.get("/protected", verifyToken, ...)]: [decoded] is what the
    middleware left in [req.decoded]. *)
Definition protected_route (decoded : JsObj) : Async (Response Token) :=
  ret (ProtectedResponse 200 decoded).

(** [router.patch("/updateProfile", ...)]. Its [catch] block reads
    [errorMessage], which is bound only inside the [catch] block of the
    register handler: evaluating the argument of [res.json] throws, so the
    handler rejects and sends nothing. *)
Definition update_route (body : UpdateBody) : Async (Response Token) :=
  try_catch
    (if negb (updateValidation body) then ret validation_failed
     else
       user <- updateUserProfile
                 (upd_username body) (upd_firstname body)
                 (upd_lastname body) (upd_address body) ;;
       match user with
       | Val _ =>
           token <- await (jwt_sign (userData user) (secretKey module)) ;;
           ret (UpdateResponse 200 "Profile updated successfully" token (userData user))
       | JsFalse =>
           ret (MsgResponse 400 "Profile update failed")
       end)
    (fun error => throw (ReferenceError "errorMessage")).

End Routes.

(** ** Token issuer and password hasher, for running the handlers *)

Module TokenIssuer.

(** A token carries its claims and a signature over them. *)
Record Token := mkToken {
  claims : JsObj;
  signature : string
}.

Section Issuer.

(** The signature algorithm: a digest of the claims under the secret. *)
Variable digest : string -> JsObj -> string.

(** Modelled from the spec: jsonwebtoken and middleware/verifyToken.mjs are
    not among the sources. Per the Token Issuer contract, [issue] signs the
    claims under the process-wide secret into a self-contained token
    (claims + signature), deterministically. *)
Definition issue (secret : string) (c : JsObj) : Token :=
  {| claims := c; signature := digest secret c |}.

(** Modelled from the spec: signing as the handlers call it. An absent or
    empty secret is a configuration error, never a signed token. *)
Definition sign (c : JsObj) (secret : option string) : result Token :=
  match secret with
  | Some s =>
      if String.eqb s "" then Rejected (Error "secretOrPrivateKey must have a value")
      else Resolved (issue s c)
  | None => Rejected (Error "secretOrPrivateKey must have a value")
  end.

End Issuer.

End TokenIssuer.

(** ** jsonwebtoken, as user.mjs and the middleware call it *)

Module Jsonwebtoken.

(** A member of a decoded payload: a string, or a number of seconds. *)
Inductive Json :=
| JString (s : string)
| JNumber (n : N).

Definition Payload := list (string * Json).

(** An object literal as the JSON payload of a token: members whose value is
    [undefined] are left out. *)
Fixpoint to_payload (o : JsObj) : Payload :=
  match o with
  | [] => []
  | (k, VStr s) :: o' => (k, JString s) :: to_payload o'
  | (k, VUndefined) :: o' => to_payload o'
  end.

(** [decoded.k]: the first member [k] of a payload, if any. *)
Fixpoint member (p : Payload) (k : string) : option Json :=
  match p with
  | [] => None
  | (k', v) :: p' => if String.eqb k' k then Some v else member p' k
  end.

Definition names (p : Payload) : list string := map fst p.

(** A token: the payload it carries and the signature over it. *)
Record Token := mkToken {
  payload : Payload;
  signature : string
}.

(** The registered claims that must be numbers of seconds when present. *)
Definition registered (k : string) : bool :=
  String.eqb k "iat" || String.eqb k "exp" || String.eqb k "nbf".

Definition quoted (k : string) : string :=
  String "034"%char (k ++ String "034"%char "").

Definition JsonWebTokenError (msg : string) : JsError :=
  {| name := "JsonWebTokenError"; message := msg; fields := None |}.

Section Package.

(** The signature algorithm, and the clock read at signing (seconds). *)
Variable digest : string -> Payload -> string.
Variable now : N.

(** Modelled from the spec: the jsonwebtoken package and
    middleware/verifyToken.mjs are not among the sources. [sign] follows the
    Token Issuer contract (a self-contained token, claims and signature under
    the secret; nothing is signed with a missing or empty secret) and, where
    the contract is silent, the package as it behaves for the call
    [jwt.sign(userData, secretKey)] of user.mjs lines 56 and 169, which passes
    no options: a registered claim that is not a number is refused, and the
    payload is stamped with [iat], the time of signing. *)
Definition sign (o : JsObj) (secret : option string) : result Token :=
  match secret with
  | None => Rejected (Error "secretOrPrivateKey must have a value")
  | Some s =>
      if String.eqb s "" then Rejected (Error "secretOrPrivateKey must have a value")
      else
        match find registered (keys o) with
        | Some k => Rejected (Error (quoted k ++ " should be a number of seconds"))
        | None =>
            let p := (to_payload o ++ [("iat", JNumber now)])%list in
            Resolved {| payload := p; signature := digest s p |}
        end
  end.

(** Modelled from the spec: [verify] is a signature check plus structural
    decode and fails closed; a token whose signature is the one the secret
    gives for its payload decodes to that payload. *)
Definition verify (t : Token) (secret : option string) : result Payload :=
  match secret with
  | None => Rejected (JsonWebTokenError "secret or public key must be provided")
  | Some s =>
      if String.eqb s "" then
        Rejected (JsonWebTokenError "secret or public key must be provided")
      else if String.eqb (signature t) (digest s (payload t)) then Resolved (payload t)
      else Rejected (JsonWebTokenError "invalid signature")
  end.

End Package.

End Jsonwebtoken.

Module PasswordHasher.

(** Modelled from the spec: utils/hashPassword.mjs and
    utils/comparePasswords.mjs are not among the sources. A stand-in with the
    two properties the spec tests, [verify (hash p) p] and not
    [verify (hash p) p2] for [p2 <> p]; salting and irreversibility are not
    represented. *)
Definition hash (plaintext : string) : result string :=
  Resolved ("$digest$" ++ plaintext).

(** Modelled from the spec: [verify digest plaintext] of the Password Hasher
    contract, true exactly when [digest] is the hash of [plaintext]. *)
Definition verify (digest plaintext : string) : result bool :=
  Resolved (String.eqb digest ("$digest$" ++ plaintext)).

End PasswordHasher.

(** ** A small database and environment used in the examples *)

Module Sample.

Definition alice : User :=
  mkUser "user" "alice" "$digest$secret1" "Alice" "Lee" "alice@x.com" "Addr1".

Definition root : User :=
  mkUser "admin" "root" "$digest$toor" "Ro" "Ot" "root@x.com" "HQ".

(** A row whose role column holds a value outside the two known roles. *)
Definition mallory : User :=
  mkUser "guest" "mallory" "$digest$pw" "Mal" "Lory" "mal@x.com" "Nowhere".

Definition db : Db := {| rows := [alice; root; mallory]; faults := [] |}.

Definition digest (secret : string) (c : JsObj) : string :=
  match get c "username" with
  | VStr u => secret ++ "/" ++ u
  | VUndefined => secret
  end.

Definition jwt_sign := TokenIssuer.sign digest.

Definition always {A} (_ : A) : bool := true.

Definition module : RouterModule := {| secretKey := Some "s3cret" |}.

End Sample.

(** The handlers and requests of the concrete runs. *)

Module Runs.

Definition login := login_route PasswordHasher.verify TokenIssuer.Token
                      Sample.jwt_sign Sample.always Sample.module.

Definition register := register_route PasswordHasher.hash TokenIssuer.Token Sample.always.

Definition update := update_route TokenIssuer.Token Sample.jwt_sign Sample.always
                       Sample.module.

(** The sample database with one fault pending. *)
Definition down : Db :=
  {| rows := rows Sample.db; faults := [Some (Error "connection lost")] |}.

Definition bob : RegisterBody :=
  mkRegisterBody "Bob" "Ray" "bob@x.com" "Addr9" "bob" "pw".

Definition alicia : UpdateBody := mkUpdateBody "alice" "Alicia" "Lee" "Addr2".

(** A stand-in for the signature over a payload: the secret and the names of
    the members signed. *)
Definition hmac (secret : string) (p : Jsonwebtoken.Payload) : string :=
  secret ++ "/" ++ String.concat "," (Jsonwebtoken.names p).

(** The sample database whose next query is refused by a unique index, the
    error carrying the given fields. *)
Definition refused (fs : JsObj) : Db :=
  {| rows := rows Sample.db; faults := [Some (UserModel.UniqueConstraintError fs)] |}.

End Runs.

(** * Properties *)

(** ** Queries and the table *)

(** The next query is answered rather than failed by the database. *)
Definition answers (db : Db) : Prop :=
  match faults db with
  | Some _ :: _ => False
  | _ => True
  end.

(** No row carries this username. *)
Definition absent (username0 : string) (rs : list User) : Prop :=
  list_find (fun u => username u = username0) rs = None.

(** The error [registerUser] ends with when its [try] block threw [error]. *)
Definition register_error (error : JsError) : JsError :=
  if String.eqb (name error) "SequelizeUniqueConstraintError" then
    if fields_has error "username" then Error "Username already exists"
    else if fields_has error "email" then Error "Email already exists"
    else Error "Username or email already exists"
  else Error "Error registering user".

(** The same instance with another value in its password-hash column. *)
Definition with_hash (user : Instance) (h : string) : Instance :=
  let u := data user in
  {| pk := pk user;
     data := mkUser (role u) (username u) h (fname u) (lname u) (email u) (address u) |}.

(** The six keys of the claims and of the user structure sent to the client. *)
Definition claim_keys : list string :=
  ["role"; "username"; "fname"; "lname"; "email"; "address"].

(** The database once its next query has been taken off the fault queue. *)
Definition after_query (db : Db) : Db :=
  {| rows := rows db; faults := tail (faults db) |}.

(** The row [updateUserProfile] writes back: [u] with the three assigned columns. *)
Definition updated (u : User) (firstname lastname address0 : string) : User :=
  mkUser (role u) (username u) (hashed_password u) firstname lastname (email u) address0.

(** The [status] member of a response. *)
Definition status_of {Token} (r : Response Token) : nat :=
  match r with
  | ErrorResponse status _ => status
  | MsgResponse status _ => status
  | LoginResponse status _ _ => status
  | UpdateResponse status _ _ _ => status
  | ProtectedResponse status _ => status
  end.

(** The outcome of [loginUser] with the instance reduced to the row it names. *)
Definition logged_in (r : result (OrFalse Instance)) : result (OrFalse nat) :=
  match r with
  | Resolved (Val user) => Resolved (Val (pk user))
  | Resolved JsFalse => Resolved JsFalse
  | Rejected e => Rejected e
  end.

(** Whether a handler's result carries a token. *)
Definition issues_token {Token} (r : result (Response Token)) : bool :=
  match r with
  | Resolved (LoginResponse _ _ _) => true
  | Resolved (UpdateResponse _ _ _ _) => true
  | _ => false
  end.

Lemma query_readonly {A} (f : list User -> result A) (db : Db) :
  rows (snd (query (fun rs => (f rs, rs)) db)) = rows db.
Proof.
  unfold query. destruct (faults db) as [|[e|] fs]; reflexivity.
Qed.

Lemma findOne_rows (username0 : string) (db : Db) :
  rows (snd (UserModel.findOne username0 db)) = rows db.
Proof. apply query_readonly. Qed.

Lemma findOne_answers (username0 : string) (db : Db) :
  answers db ->
  UserModel.findOne username0 db =
    (Resolved
       (match list_find (fun u => username u = username0) (rows db) with
        | Some (i, u) => Some {| pk := i; data := u |}
        | None => None
        end),
     {| rows := rows db; faults := tail (faults db) |}).
Proof.
  unfold answers, UserModel.findOne, query.
  destruct (faults db) as [|[e|] fs]; simpl; intros H; [reflexivity|contradiction|reflexivity].
Qed.

Lemma findOne_found (username0 : string) (db db' : Db) (user : Instance) :
  UserModel.findOne username0 db = (Resolved (Some user), db') ->
  list_find (fun u => username u = username0) (rows db) = Some (pk user, data user) /\
  rows db' = rows db.
Proof.
  intros H.
  assert (Hr : rows db' = rows db).
  { rewrite <- (findOne_rows username0 db). now rewrite H. }
  unfold UserModel.findOne, query in H.
  destruct (faults db) as [|[e|] fs]; simpl in H; try discriminate;
    destruct (list_find _ (rows db)) as [[i u]|] eqn:Hf; try discriminate;
    injection H as <- _; auto.
Qed.

Lemma findOne_missing (username0 : string) (db db' : Db) :
  UserModel.findOne username0 db = (Resolved None, db') ->
  absent username0 (rows db) /\ rows db' = rows db.
Proof.
  intros H.
  assert (Hr : rows db' = rows db).
  { rewrite <- (findOne_rows username0 db). now rewrite H. }
  unfold UserModel.findOne, query, absent in *.
  destruct (faults db) as [|[e|] fs]; simpl in H; try discriminate;
    destruct (list_find _ (rows db)) as [[i u]|] eqn:Hf; try discriminate; auto.
Qed.

Lemma save_rows (user : Instance) (db : Db) :
  rows (snd (UserModel.save user db)) = rows db \/
  rows (snd (UserModel.save user db)) = <[pk user := data user]> (rows db).
Proof.
  unfold UserModel.save, query.
  destruct (faults db) as [|[e|] fs]; simpl; auto.
Qed.

(** Writing back a row that agrees with the old one on a column leaves that
    column of the table as it was. *)
Lemma column_insert {B} (col : User -> B) (rs : list User) (i : nat) (old new : User) :
  rs !! i = Some old -> col new = col old ->
  col <$> <[i := new]> rs = col <$> rs.
Proof.
  intros Hl Hc. rewrite list_fmap_insert, Hc.
  apply list_insert_id. now rewrite list_lookup_fmap, Hl.
Qed.

(** ** Login *)

Section LoginProperties.

Variable comparePasswords : string -> string -> result bool.

(** C10. [loginUser] never writes to the user table: for every username,
    password and database state, fault or no fault, match or no match, the
    rows after the call are the rows before it. *)
Theorem loginUser_readonly (username0 password : string) (db : Db) :
  rows (snd (loginUser comparePasswords username0 password db)) = rows db.
Proof.
  unfold loginUser, try_catch, bind.
  pose proof (findOne_rows username0 db) as Hr.
  destruct (UserModel.findOne username0 db) as [[[user|]|e] db1]; simpl in *; auto.
  unfold await.
  destruct (comparePasswords (hashed_password (data user)) password) as [[|]|e];
    simpl; auto.
Qed.

(** What [loginUser] returns once the lookup has been answered. *)
Lemma loginUser_answers (username0 password : string) (db : Db) :
  answers db ->
  fst (loginUser comparePasswords username0 password db) =
    match list_find (fun u => username u = username0) (rows db) with
    | None => Resolved JsFalse
    | Some (i, u) =>
        match comparePasswords (hashed_password u) password with
        | Resolved true => Resolved (Val {| pk := i; data := u |})
        | Resolved false => Resolved JsFalse
        | Rejected _ => Rejected (Error "Error logging in")
        end
    end.
Proof.
  intros Ha. unfold loginUser, try_catch, bind.
  rewrite (findOne_answers _ _ Ha).
  destruct (list_find _ (rows db)) as [[i u]|]; simpl; auto.
  unfold await.
  destruct (comparePasswords (hashed_password u) password) as [[|]|e]; reflexivity.
Qed.

End LoginProperties.

(** ** Profile update *)

(** The table after [updateUserProfile]: untouched, or the row the lookup found
    written back with the three assigned columns. *)
Lemma updateUserProfile_rows (username0 firstname lastname address0 : string) (db : Db) :
  let db' := snd (updateUserProfile username0 firstname lastname address0 db) in
  rows db' = rows db \/
  exists i u,
    list_find (fun u => username u = username0) (rows db) = Some (i, u) /\
    rows db' =
      <[i := mkUser (role u) (username u) (hashed_password u)
                    firstname lastname (email u) address0]> (rows db).
Proof.
  unfold updateUserProfile, try_catch, bind.
  pose proof (findOne_rows username0 db) as Hr0.
  destruct (UserModel.findOne username0 db) as [[[user|]|e] db1] eqn:Hf;
    simpl in *; auto.
  apply findOne_found in Hf as (Hfind & Hr).
  set (user' := assign_address _ _).
  match goal with |- context [rows (snd ?t)] => set (out := t) end.
  assert (Hout : rows (snd out) = rows (snd (UserModel.save user' db1))).
  { subst out. destruct (UserModel.save user' db1) as [[[]|e] db2]; reflexivity. }
  rewrite Hout.
  destruct (save_rows user' db1) as [-> | ->]; rewrite Hr; [auto|].
  right. exists (pk user), (data user). split; [exact Hfind | reflexivity].
Qed.

(** C4. [updateUserProfile] leaves the username, email, role and password-hash
    columns of the whole table as they were, for every input and database
    state; the table is either untouched or differs in the one row the lookup
    found, which keeps those four columns and takes the given first name, last
    name and address. *)
Theorem updateUserProfile_frame (username0 firstname lastname address0 : string) (db : Db) :
  let db' := snd (updateUserProfile username0 firstname lastname address0 db) in
  username <$> rows db' = username <$> rows db /\
  email <$> rows db' = email <$> rows db /\
  role <$> rows db' = role <$> rows db /\
  hashed_password <$> rows db' = hashed_password <$> rows db /\
  (rows db' = rows db \/
   exists i u,
     list_find (fun u => username u = username0) (rows db) = Some (i, u) /\
     rows db' =
       <[i := mkUser (role u) (username u) (hashed_password u)
                     firstname lastname (email u) address0]> (rows db)).
Proof.
  intros db'.
  pose proof (updateUserProfile_rows username0 firstname lastname address0 db) as H.
  fold db' in H. simpl in H.
  destruct H as [H | (i & u & Hf & H)].
  - rewrite H. repeat split; auto.
  - pose proof Hf as Hl. apply list_find_Some in Hl as (Hl & _ & _).
    rewrite H.
    repeat split; try (eapply column_insert; [exact Hl | reflexivity]).
    right. exists i, u. auto.
Qed.

Section UpdateProperties.

Variable Token : Type.
Variable jwt_sign : JsObj -> option string -> result Token.
Variable updateValidation : UpdateBody -> bool.
Variable module : RouterModule.

(** The handler changes the table only through [updateUserProfile]. *)
Lemma update_route_rows (body : UpdateBody) (db : Db) :
  rows (snd (update_route Token jwt_sign updateValidation module body db)) = rows db \/
  rows (snd (update_route Token jwt_sign updateValidation module body db)) =
    rows (snd (updateUserProfile (upd_username body) (upd_firstname body)
                 (upd_lastname body) (upd_address body) db)).
Proof.
  unfold update_route, try_catch, bind.
  destruct (updateValidation body); simpl; auto.
  destruct (updateUserProfile _ _ _ _ db) as [[[user|]|e] db1]; simpl; auto.
  unfold await. destruct (jwt_sign _ _); simpl; auto.
Qed.

Lemma updateUserProfile_absent (username0 firstname lastname address0 : string) (db : Db) :
  absent username0 (rows db) ->
  rows (snd (updateUserProfile username0 firstname lastname address0 db)) = rows db /\
  (answers db ->
   fst (updateUserProfile username0 firstname lastname address0 db) = Resolved JsFalse).
Proof.
  intros Habs. split.
  - destruct (updateUserProfile_rows username0 firstname lastname address0 db)
      as [H | (i & u & Hf & _)]; [exact H|].
    unfold absent in Habs. congruence.
  - intros Ha. unfold updateUserProfile, try_catch, bind.
    rewrite (findOne_answers _ _ Ha). unfold absent in Habs. now rewrite Habs.
Qed.

(** C8. For every profile update whose username is in no row of the user
    table, the table is left as it was (nothing created, nothing changed),
    and, the lookup being answered, the service returns [false] (user not
    found) and the handler of a valid request answers with the failure
    response, status 400 "Profile update failed". *)
Theorem update_absent_user (body : UpdateBody) (db : Db) :
  absent (upd_username body) (rows db) ->
  answers db ->
  updateValidation body = true ->
  fst (updateUserProfile (upd_username body) (upd_firstname body)
         (upd_lastname body) (upd_address body) db) = Resolved JsFalse /\
  fst (update_route Token jwt_sign updateValidation module body db) =
    Resolved (MsgResponse 400 "Profile update failed") /\
  rows (snd (updateUserProfile (upd_username body) (upd_firstname body)
               (upd_lastname body) (upd_address body) db)) = rows db /\
  rows (snd (update_route Token jwt_sign updateValidation module body db)) = rows db.
Proof.
  intros Habs Ha Hv.
  destruct (updateUserProfile_absent (upd_username body) (upd_firstname body)
              (upd_lastname body) (upd_address body) db Habs) as (Hrows & Hres).
  specialize (Hres Ha).
  repeat split; auto.
  - unfold update_route, try_catch, bind. rewrite Hv. simpl.
    destruct (updateUserProfile _ _ _ _ db) as [r db1]. simpl in Hres. now subst r.
  - destruct (update_route_rows body db) as [H | H]; rewrite H; auto.
Qed.

End UpdateProperties.

(** ** Registration *)

Section RegisterProperties.

Variable hashPassword : string -> result string.

(** C9. Whatever the inputs to [registerUser] and the state of the database,
    the table afterwards is the table before, or the table before with one
    row appended whose role is "user" and whose other columns are the given
    username, names, email and address. *)
Theorem registerUser_role_user
  (username0 password fname0 lname0 email0 address0 : string) (db : Db) :
  let db' := snd (registerUser hashPassword username0 password
                    fname0 lname0 email0 address0 db) in
  rows db' = rows db \/
  exists u,
    rows db' = (rows db ++ [u])%list /\
    role u = "user" /\ username u = username0 /\ fname u = fname0 /\
    lname u = lname0 /\ email u = email0 /\ address u = address0.
Proof.
  unfold registerUser, try_catch, bind, await.
  destruct (hashPassword password) as [h|e]; simpl.
  - unfold UserModel.create, query.
    destruct (faults db) as [|[e|] fs]; simpl;
      repeat match goal with
        | |- context [if ?b then _ else _] => destruct b; simpl
        end;
      solve [ left; reflexivity
            | right; eexists; split; [reflexivity | simpl; repeat split] ].
  - left.
    repeat match goal with
           | |- context [if ?b then _ else _] => destruct b; simpl
           end; reflexivity.
Qed.

End RegisterProperties.

(** ** The handlers, read off their results *)

Section RouteProperties.

Variable hashPassword : string -> result string.
Variable comparePasswords : string -> string -> result bool.
Variable Token : Type.
Variable jwt_sign : JsObj -> option string -> result Token.
Variable loginValidation : LoginBody -> bool.
Variable registerValidation : RegisterBody -> bool.
Variable updateValidation : UpdateBody -> bool.
Variable module : RouterModule.

Let login := login_route comparePasswords Token jwt_sign loginValidation module.
Let register := register_route hashPassword Token registerValidation.
Let update := update_route Token jwt_sign updateValidation module.

Lemma login_route_response (body : LoginBody) (db : Db) :
  fst (login body db) =
    if negb (loginValidation body) then Resolved (validation_failed Token)
    else
      match fst (loginUser comparePasswords (login_username body) (login_password body) db) with
      | Resolved user =>
          if strict_eq (prop user role) "admin" || strict_eq (prop user role) "user" then
            match jwt_sign (userData user) (secretKey module) with
            | Resolved token => Resolved (LoginResponse 200 token (userData user))
            | Rejected _ => Resolved (ErrorResponse 500 "Internal server error")
            end
          else Resolved (ErrorResponse 401 "Invalid username or password")
      | Rejected _ => Resolved (ErrorResponse 500 "Internal server error")
      end.
Proof.
  subst login. unfold login_route, try_catch, bind, await, ret.
  destruct (loginValidation body); simpl; [|reflexivity].
  destruct (loginUser _ _ _ db) as [[user|e] db1]; simpl; [|reflexivity].
  destruct (strict_eq _ "admin" || strict_eq _ "user"); simpl; [|reflexivity].
  destruct (jwt_sign _ _); reflexivity.
Qed.

Lemma update_route_response (body : UpdateBody) (db : Db) :
  fst (update body db) =
    if negb (updateValidation body) then Resolved (validation_failed Token)
    else
      match fst (updateUserProfile (upd_username body) (upd_firstname body)
                   (upd_lastname body) (upd_address body) db) with
      | Resolved (Val user) =>
          match jwt_sign (userData (Val user)) (secretKey module) with
          | Resolved token =>
              Resolved (UpdateResponse 200 "Profile updated successfully" token
                          (userData (Val user)))
          | Rejected _ => Rejected (ReferenceError "errorMessage")
          end
      | Resolved JsFalse => Resolved (MsgResponse 400 "Profile update failed")
      | Rejected _ => Rejected (ReferenceError "errorMessage")
      end.
Proof.
  subst update. unfold update_route, try_catch, bind, await, ret.
  destruct (updateValidation body); simpl; [|reflexivity].
  destruct (updateUserProfile _ _ _ _ db) as [[[user|]|e] db1]; simpl; try reflexivity.
  destruct (jwt_sign _ _); reflexivity.
Qed.

Lemma registerUser_result
  (username0 password fname0 lname0 email0 address0 : string) (db : Db) :
  fst (registerUser hashPassword username0 password fname0 lname0 email0 address0 db) =
    match hashPassword password with
    | Rejected e => Rejected (register_error e)
    | Resolved h =>
        match fst (UserModel.create
                     (mkUser "user" username0 h fname0 lname0 email0 address0) db) with
        | Resolved _ => Resolved tt
        | Rejected e => Rejected (register_error e)
        end
    end.
Proof.
  unfold registerUser, register_error, try_catch, bind, await, throw.
  destruct (hashPassword password) as [h|e]; simpl.
  - destruct (UserModel.create _ db) as [[[]|e] db1]; simpl; [reflexivity|].
    destruct (String.eqb (name e) _); [|reflexivity].
    destruct (fields_has e "username"); [reflexivity|].
    destruct (fields_has e "email"); reflexivity.
  - destruct (String.eqb (name e) _); [|reflexivity].
    destruct (fields_has e "username"); [reflexivity|].
    destruct (fields_has e "email"); reflexivity.
Qed.

Lemma register_route_response (body : RegisterBody) (db : Db) :
  fst (register body db) =
    if negb (registerValidation body) then Resolved (validation_failed Token)
    else
      match fst (registerUser hashPassword (reg_username body) (reg_confirmPassword body)
                   (reg_firstname body) (reg_lastname body)
                   (reg_email body) (reg_address body) db) with
      | Resolved _ => Resolved (MsgResponse 201 "Account created successfully")
      | Rejected error =>
          if String.eqb (message error) "Username already exists"
             || String.eqb (message error) "Email already exists"
             || String.eqb (message error) "Email or username already exists"
          then Resolved (ErrorResponse 401 (message error))
          else Resolved (ErrorResponse 500 "Internal server error")
      end.
Proof.
  subst register. unfold register_route, try_catch, bind, ret.
  destruct (registerValidation body); simpl; [|reflexivity].
  destruct (registerUser _ _ _ _ _ _ _ db) as [[[]|e] db1]; simpl; [reflexivity|].
  destruct (String.eqb (message e) _ || _ || _); reflexivity.
Qed.

(** A create that fails on the username constraint is answered with status
    401 and "Username already exists"; on the email constraint, with
    "Email already exists"; any fault that is not a uniqueness violation,
    with status 500 and "Internal server error". *)
Lemma register_route_duplicate (body : RegisterBody) (db : Db) (h : string) (e : JsError) :
  registerValidation body = true ->
  hashPassword (reg_confirmPassword body) = Resolved h ->
  fst (UserModel.create
         (mkUser "user" (reg_username body) h (reg_firstname body)
            (reg_lastname body) (reg_email body) (reg_address body)) db) = Rejected e ->
  fst (register body db) =
    if String.eqb (name e) "SequelizeUniqueConstraintError" then
      if fields_has e "username" then
        Resolved (ErrorResponse 401 "Username already exists")
      else if fields_has e "email" then
        Resolved (ErrorResponse 401 "Email already exists")
      else Resolved (ErrorResponse 500 "Internal server error")
    else Resolved (ErrorResponse 500 "Internal server error").
Proof.
  intros Hv Hh Hc.
  rewrite register_route_response, Hv, registerUser_result, Hh, Hc. simpl.
  unfold register_error.
  destruct (String.eqb (name e) _); [|reflexivity].
  destruct (fields_has e "username"); [reflexivity|].
  destruct (fields_has e "email"); reflexivity.
Qed.

(** C5. For every valid login request whose user is found and whose password
    verifies, if the role column of that row is neither "user" nor "admin"
    the handler answers status 401 "Invalid username or password"; the
    answer carries no token, whatever [jwt.sign] would do. *)
Theorem login_unknown_role_rejected (body : LoginBody) (db : Db) (i : nat) (u : User) :
  loginValidation body = true ->
  answers db ->
  list_find (fun u => username u = login_username body) (rows db) = Some (i, u) ->
  comparePasswords (hashed_password u) (login_password body) = Resolved true ->
  role u <> "user" ->
  role u <> "admin" ->
  fst (login body db) = Resolved (ErrorResponse 401 "Invalid username or password").
Proof.
  intros Hv Ha Hf Hc Hu Hadm.
  rewrite login_route_response, Hv, (loginUser_answers _ _ _ _ Ha), Hf, Hc. simpl.
  apply String.eqb_neq in Hu, Hadm. now rewrite Hu, Hadm.
Qed.

End RouteProperties.

(** ** What the client is sent *)

Lemma userData_keys (user : OrFalse Instance) : keys (userData user) = claim_keys.
Proof. reflexivity. Qed.

Lemma userData_with_hash (user : Instance) (h : string) :
  userData (Val (with_hash user h)) = userData (Val user).
Proof. reflexivity. Qed.

Section ClaimsProperties.

Variable comparePasswords : string -> string -> result bool.
Variable Token : Type.
Variable jwt_sign : JsObj -> option string -> result Token.
Variable loginValidation : LoginBody -> bool.
Variable updateValidation : UpdateBody -> bool.
Variable module : RouterModule.


End ClaimsProperties.

(** ** The signing secret *)

Section RefusedSecret.

Variable comparePasswords : string -> string -> result bool.
Variable Token : Type.
Variable jwt_sign : JsObj -> option string -> result Token.
Variable loginValidation : LoginBody -> bool.
Variable updateValidation : UpdateBody -> bool.
Variable module : RouterModule.

(** When [jwt.sign] refuses the secret the module holds, neither handler ever
    answers with a token, and a login that reaches the signing is answered
    status 500. *)
Lemma refused_secret_no_token :
  (forall c, exists e, jwt_sign c (secretKey module) = Rejected e) ->
  (forall body db,
     issues_token
       (fst (login_route comparePasswords Token jwt_sign loginValidation module body db)) =
       false) /\
  (forall body db user,
     loginValidation body = true ->
     fst (loginUser comparePasswords (login_username body) (login_password body) db) =
       Resolved (Val user) ->
     role (data user) = "user" \/ role (data user) = "admin" ->
     fst (login_route comparePasswords Token jwt_sign loginValidation module body db) =
       Resolved (ErrorResponse 500 "Internal server error")) /\
  (forall body db,
     issues_token (fst (update_route Token jwt_sign updateValidation module body db)) =
       false).
Proof.
  intros Href. split; [|split].
  - intros body db. rewrite login_route_response.
    destruct (loginValidation body); simpl; [|reflexivity].
    destruct (fst (loginUser _ _ _ db)) as [user|e]; [|reflexivity].
    match goal with |- context [if ?b then _ else _] => destruct b end; [|reflexivity].
    destruct (Href (userData user)) as (e & ->). reflexivity.
  - intros body db user Hv Hu Hr.
    rewrite login_route_response, Hv, Hu.
    destruct (Href (userData (Val user))) as (e & He). rewrite He.
    simpl. destruct Hr as [-> | ->]; reflexivity.
  - intros body db. rewrite update_route_response.
    destruct (updateValidation body); simpl; [|reflexivity].
    destruct (fst (updateUserProfile _ _ _ _ db)) as [[user|]|e]; try reflexivity.
    destruct (Href (userData (Val user))) as (e & ->). reflexivity.
Qed.

End RefusedSecret.

Lemma sign_refuses_missing_secret
  (digest : string -> Jsonwebtoken.Payload -> string) (now : N) (k : option string) :
  k = None \/ k = Some "" ->
  forall c, exists e, Jsonwebtoken.sign digest now c k = Rejected e.
Proof. intros [-> | ->] c; eexists; reflexivity. Qed.

(** C2. When SECRET_KEY is absent from the environment, or empty, loading the
    module does not fail: it binds [secretKey] to what the environment held.
    With that secret no token is ever issued: [jwt.sign] refuses it, so for
    every request and database state the login handler and the profile-update
    handler answer without a token, and a valid login whose user is returned
    with a known role is answered status 500 "Internal server error". *)
Theorem missing_secret_never_signs
  (env : Env) (digest : string -> Jsonwebtoken.Payload -> string) (now : N) :
  getenv env "SECRET_KEY" = None \/ getenv env "SECRET_KEY" = Some "" ->
  load env = Resolved {| secretKey := getenv env "SECRET_KEY" |} /\
  (forall comparePasswords loginValidation body db,
     issues_token
       (fst (login_route comparePasswords Jsonwebtoken.Token
               (Jsonwebtoken.sign digest now) loginValidation
               {| secretKey := getenv env "SECRET_KEY" |} body db)) = false) /\
  (forall comparePasswords loginValidation body db user,
     loginValidation body = true ->
     fst (loginUser comparePasswords (login_username body) (login_password body) db) =
       Resolved (Val user) ->
     role (data user) = "user" \/ role (data user) = "admin" ->
     fst (login_route comparePasswords Jsonwebtoken.Token
            (Jsonwebtoken.sign digest now) loginValidation
            {| secretKey := getenv env "SECRET_KEY" |} body db) =
       Resolved (ErrorResponse 500 "Internal server error")) /\
  (forall updateValidation body db,
     issues_token
       (fst (update_route Jsonwebtoken.Token (Jsonwebtoken.sign digest now)
               updateValidation {| secretKey := getenv env "SECRET_KEY" |} body db)) =
       false).
Proof.
  intros Henv. split; [reflexivity|].
  pose proof (sign_refuses_missing_secret digest now _ Henv) as Href.
  split; [|split].
  - intros cmp lv body db.
    apply (refused_secret_no_token cmp _ _ lv (fun _ => true)
             {| secretKey := getenv env "SECRET_KEY" |} Href).
  - intros cmp lv body db user.
    apply (refused_secret_no_token cmp _ _ lv (fun _ => true)
             {| secretKey := getenv env "SECRET_KEY" |} Href).
  - intros uv body db.
    apply (refused_secret_no_token (fun _ _ => Resolved true) _ _ (fun _ => true) uv
             {| secretKey := getenv env "SECRET_KEY" |} Href).
Qed.

(** ** Failed logins *)

(** C3. For every login whose lookup is answered, [loginUser] resolves with
    the same value [false] when no row has the username and when the row is
    found but the password does not verify, and the handler of a valid request
    answers both with status 401 "Invalid username or password". *)
Theorem login_failures_both_false
  (comparePasswords : string -> string -> result bool)
  (Token : Type) (jwt_sign : JsObj -> option string -> result Token)
  (loginValidation : LoginBody -> bool) (module : RouterModule)
  (body : LoginBody) (db : Db) :
  answers db ->
  (absent (login_username body) (rows db) ->
   fst (loginUser comparePasswords (login_username body) (login_password body) db) =
     Resolved JsFalse /\
   (loginValidation body = true ->
    fst (login_route comparePasswords Token jwt_sign loginValidation module body db) =
      Resolved (ErrorResponse 401 "Invalid username or password"))) /\
  (forall i u,
     list_find (fun u => username u = login_username body) (rows db) = Some (i, u) ->
     comparePasswords (hashed_password u) (login_password body) = Resolved false ->
     fst (loginUser comparePasswords (login_username body) (login_password body) db) =
       Resolved JsFalse /\
     (loginValidation body = true ->
      fst (login_route comparePasswords Token jwt_sign loginValidation module body db) =
        Resolved (ErrorResponse 401 "Invalid username or password"))).
Proof.
  intros Ha.
  assert (Hroute :
    fst (loginUser comparePasswords (login_username body) (login_password body) db) =
      Resolved JsFalse ->
    loginValidation body = true ->
    fst (login_route comparePasswords Token jwt_sign loginValidation module body db) =
      Resolved (ErrorResponse 401 "Invalid username or password")).
  { intros Hl Hv. now rewrite login_route_response, Hv, Hl. }
  assert (Hl := loginUser_answers comparePasswords (login_username body)
                  (login_password body) db Ha).
  split.
  - intros Habs. unfold absent in Habs. rewrite Habs in Hl. auto.
  - intros i u Hf Hc. rewrite Hf, Hc in Hl. auto.
Qed.

(** ** Token round trip *)

Lemma member_absent (p : Jsonwebtoken.Payload) (k : string) :
  ~ In k (Jsonwebtoken.names p) -> Jsonwebtoken.member p k = None.
Proof.
  induction p as [|[k' v] p IH]; simpl; [reflexivity|].
  intros Hn. destruct (String.eqb_spec k' k) as [->|Hne]; [tauto|].
  apply IH. tauto.
Qed.

Lemma names_to_payload_incl (c : JsObj) (k : string) :
  In k (Jsonwebtoken.names (Jsonwebtoken.to_payload c)) -> In k (keys c).
Proof.
  induction c as [|[k' [s|]] c IH]; simpl; [tauto| |]; intros H; [destruct H|]; auto.
Qed.

Lemma member_app (p q : Jsonwebtoken.Payload) (k : string) :
  Jsonwebtoken.member (p ++ q)%list k =
    match Jsonwebtoken.member p k with
    | Some v => Some v
    | None => Jsonwebtoken.member q k
    end.
Proof.
  induction p as [|[k' v] p IH]; simpl; [reflexivity|].
  destruct (String.eqb k' k); [reflexivity | exact IH].
Qed.

(** A member of the object literal that holds a string is the same member of
    its payload. *)
Lemma member_to_payload (c : JsObj) (k s : string) :
  get c k = VStr s ->
  Jsonwebtoken.member (Jsonwebtoken.to_payload c) k = Some (Jsonwebtoken.JString s).
Proof.
  induction c as [|[k' v] c IH]; simpl; [discriminate|].
  destruct (String.eqb k' k) eqn:Hk.
  - intros ->. simpl. now rewrite Hk.
  - intros H. destruct v; simpl; [rewrite Hk|]; auto.
Qed.

(** C6. For every claims set with the six session keys and every non-empty
    secret, [jwt.sign] issues a token, and verifying it under the same secret
    gives the payload of the claims followed by the member [iat], the time of
    signing: every string field of the claims comes back unchanged, [iat] is
    added, and so the result is never exactly the claims. *)
Theorem sign_verify_adds_iat
  (digest : string -> Jsonwebtoken.Payload -> string) (now : N)
  (secret : string) (c : JsObj) :
  keys c = claim_keys ->
  secret <> "" ->
  exists t decoded,
    Jsonwebtoken.sign digest now c (Some secret) = Resolved t /\
    Jsonwebtoken.verify digest t (Some secret) = Resolved decoded /\
    decoded = (Jsonwebtoken.to_payload c ++ [("iat", Jsonwebtoken.JNumber now)])%list /\
    (forall k s, get c k = VStr s ->
                 Jsonwebtoken.member decoded k = Some (Jsonwebtoken.JString s)) /\
    Jsonwebtoken.member decoded "iat" = Some (Jsonwebtoken.JNumber now) /\
    decoded <> Jsonwebtoken.to_payload c.
Proof.
  intros Hk Hs. apply String.eqb_neq in Hs.
  eexists; eexists. split; [|split; [|split; [reflexivity|]]].
  - unfold Jsonwebtoken.sign. rewrite Hs, Hk. reflexivity.
  - unfold Jsonwebtoken.verify. simpl. now rewrite Hs, String.eqb_refl.
  - split; [|split].
    + intros k s Hg. rewrite member_app, (member_to_payload _ _ _ Hg). reflexivity.
    + rewrite member_app, member_absent; [reflexivity|].
      intros Hin. apply names_to_payload_incl in Hin. rewrite Hk in Hin.
      simpl in Hin. intuition discriminate.
    + intros Heq. apply (f_equal (@length _)) in Heq.
      rewrite length_app in Heq. simpl in Heq. lia.
Qed.

(** ** Duplicate registrations *)

(** C1. A registration whose insert fails on the uniqueness constraint with a
    field that cannot be told (the error names neither username nor email):
    [registerUser] throws "Username or email already exists", the handler
    looks for "Email or username already exists", and the client is sent
    status 500 "Internal server error". *)
Theorem register_unknown_duplicate_is_500 :
  let db := {| rows := rows Sample.db;
               faults := [Some (UserModel.UniqueConstraintError [])] |} in
  let body := mkRegisterBody "Bob" "Ray" "bob@x.com" "Addr9" "bob" "pw" in
  fst (registerUser PasswordHasher.hash "bob" "pw" "Bob" "Ray" "bob@x.com" "Addr9" db) =
    Rejected (Error "Username or email already exists") /\
  fst (register_route PasswordHasher.hash TokenIssuer.Token Sample.always body db) =
    Resolved (ErrorResponse 500 "Internal server error").
Proof. split; reflexivity. Qed.

(** The two determinable cases on the sample table: a taken username and a
    taken email are answered with status 401 and their own message. *)
Example register_duplicate_username :
  fst (register_route PasswordHasher.hash TokenIssuer.Token Sample.always
         (mkRegisterBody "Al" "Ice" "other@x.com" "Addr9" "alice" "pw") Sample.db) =
    Resolved (ErrorResponse 401 "Username already exists").
Proof. reflexivity. Qed.

Example register_duplicate_email :
  fst (register_route PasswordHasher.hash TokenIssuer.Token Sample.always
         (mkRegisterBody "Bob" "Ray" "alice@x.com" "Addr9" "bob" "pw") Sample.db) =
    Resolved (ErrorResponse 401 "Email already exists").
Proof. reflexivity. Qed.

Example register_storage_fault :
  fst (register_route PasswordHasher.hash TokenIssuer.Token Sample.always
         (mkRegisterBody "Bob" "Ray" "bob@x.com" "Addr9" "bob" "pw")
         {| rows := rows Sample.db; faults := [Some (Error "connection lost")] |}) =
    Resolved (ErrorResponse 500 "Internal server error").
Proof. reflexivity. Qed.

(** ** Concrete runs *)

(** With no SECRET_KEY in the environment the module loads all the same. *)
Lemma load_without_secret_succeeds :
  getenv [("PORT", "3000")] "SECRET_KEY" = None /\
  load [("PORT", "3000")] = Resolved {| secretKey := None |}.
Proof. split; reflexivity. Qed.

Lemma missing_secret_witness :
  load [("PORT", "3000")] = Resolved {| secretKey := None |} /\
  fst (login_route PasswordHasher.verify Jsonwebtoken.Token
         (Jsonwebtoken.sign Runs.hmac 1700000000) Sample.always
         {| secretKey := None |} (mkLoginBody "alice" "secret1") Sample.db) =
    Resolved (ErrorResponse 500 "Internal server error") /\
  issues_token
    (fst (update_route Jsonwebtoken.Token (Jsonwebtoken.sign Runs.hmac 1700000000)
            Sample.always {| secretKey := None |} Runs.alicia Sample.db)) = false /\
  load [("SECRET_KEY", "")] = Resolved {| secretKey := Some "" |} /\
  fst (login_route PasswordHasher.verify Jsonwebtoken.Token
         (Jsonwebtoken.sign Runs.hmac 1700000000) Sample.always
         {| secretKey := Some "" |} (mkLoginBody "alice" "secret1") Sample.db) =
    Resolved (ErrorResponse 500 "Internal server error").
Proof.
  destruct (missing_secret_never_signs [("PORT", "3000")] Runs.hmac 1700000000
              (or_introl eq_refl)) as (Hload & _ & Hlogin & Hupdate).
  destruct (missing_secret_never_signs [("SECRET_KEY", "")] Runs.hmac 1700000000
              (or_intror eq_refl)) as (Hload' & _ & Hlogin' & _).
  split; [exact Hload|]. split; [|split; [|split; [exact Hload'|]]].
  - exact (Hlogin PasswordHasher.verify Sample.always (mkLoginBody "alice" "secret1")
             Sample.db {| pk := 0; data := Sample.alice |}
             eq_refl eq_refl (or_introl eq_refl)).
  - exact (Hupdate Sample.always Runs.alicia Sample.db).
  - exact (Hlogin' PasswordHasher.verify Sample.always (mkLoginBody "alice" "secret1")
             Sample.db {| pk := 0; data := Sample.alice |}
             eq_refl eq_refl (or_introl eq_refl)).
Defined.

(** A login for a username in no row and a login with a wrong password for a
    stored user give the same result. *)
Lemma login_failures_indistinguishable :
  absent "ghost" (rows Sample.db) /\
  (exists i u,
     list_find (fun u => username u = "alice") (rows Sample.db) = Some (i, u) /\
     PasswordHasher.verify (hashed_password u) "wrong" = Resolved false) /\
  fst (loginUser PasswordHasher.verify "ghost" "wrong" Sample.db) = Resolved JsFalse /\
  fst (loginUser PasswordHasher.verify "alice" "wrong" Sample.db) = Resolved JsFalse /\
  loginUser PasswordHasher.verify "ghost" "wrong" Sample.db =
    loginUser PasswordHasher.verify "alice" "wrong" Sample.db.
Proof.
  split; [reflexivity|]. split; [|repeat split].
  exists 0, Sample.alice. split; reflexivity.
Qed.

Lemma login_failures_witness :
  (fst (loginUser PasswordHasher.verify "ghost" "wrong" Sample.db) = Resolved JsFalse /\
   fst (Runs.login (mkLoginBody "ghost" "wrong") Sample.db) =
     Resolved (ErrorResponse 401 "Invalid username or password")) /\
  (fst (loginUser PasswordHasher.verify "alice" "wrong" Sample.db) = Resolved JsFalse /\
   fst (Runs.login (mkLoginBody "alice" "wrong") Sample.db) =
     Resolved (ErrorResponse 401 "Invalid username or password")).
Proof.
  split.
  - destruct (proj1 (login_failures_both_false PasswordHasher.verify TokenIssuer.Token
                       Sample.jwt_sign Sample.always Sample.module
                       (mkLoginBody "ghost" "wrong") Sample.db I) eq_refl)
      as (Hsvc & Hroute).
    split; [exact Hsvc | exact (Hroute eq_refl)].
  - destruct (proj2 (login_failures_both_false PasswordHasher.verify TokenIssuer.Token
                       Sample.jwt_sign Sample.always Sample.module
                       (mkLoginBody "alice" "wrong") Sample.db I)
                0 Sample.alice eq_refl eq_refl)
      as (Hsvc & Hroute).
    split; [exact Hsvc | exact (Hroute eq_refl)].
Defined.

(** The token signed from alice's claims verifies to seven members, the six
    claims and [iat]: not to the claims themselves. *)
Lemma roundtrip_returns_iat :
  exists t,
    Jsonwebtoken.sign Runs.hmac 1700000000
      (userData (Val {| pk := 0; data := Sample.alice |})) (Some "s3cret") = Resolved t /\
    Jsonwebtoken.verify Runs.hmac t (Some "s3cret") =
      Resolved
        [ ("role", Jsonwebtoken.JString "user");
          ("username", Jsonwebtoken.JString "alice");
          ("fname", Jsonwebtoken.JString "Alice");
          ("lname", Jsonwebtoken.JString "Lee");
          ("email", Jsonwebtoken.JString "alice@x.com");
          ("address", Jsonwebtoken.JString "Addr1");
          ("iat", Jsonwebtoken.JNumber 1700000000) ] /\
    Jsonwebtoken.verify Runs.hmac t (Some "s3cret") <>
      Resolved (Jsonwebtoken.to_payload (userData (Val {| pk := 0; data := Sample.alice |}))).
Proof.
  eexists. split; [reflexivity|]. split; [reflexivity|]. discriminate.
Qed.

Lemma sign_verify_adds_iat_witness :
  exists t decoded,
    Jsonwebtoken.sign Runs.hmac 1700000000
      (userData (Val {| pk := 1; data := Sample.root |})) (Some "s3cret") = Resolved t /\
    Jsonwebtoken.verify Runs.hmac t (Some "s3cret") = Resolved decoded /\
    Jsonwebtoken.member decoded "role" = Some (Jsonwebtoken.JString "admin") /\
    Jsonwebtoken.member decoded "iat" = Some (Jsonwebtoken.JNumber 1700000000).
Proof.
  assert (Hs : "s3cret" <> "") by discriminate.
  destruct (sign_verify_adds_iat Runs.hmac 1700000000 "s3cret"
              (userData (Val {| pk := 1; data := Sample.root |})) eq_refl Hs)
    as (t & decoded & Hsign & Hverify & _ & Hfields & Hiat & _).
  exists t, decoded. split; [exact Hsign|]. split; [exact Hverify|].
  split; [exact (Hfields "role" "admin" eq_refl) | exact Hiat].
Defined.

Lemma login_unknown_role_witness :
  fst (login_route PasswordHasher.verify TokenIssuer.Token Sample.jwt_sign Sample.always
         Sample.module (mkLoginBody "mallory" "pw") Sample.db) =
    Resolved (ErrorResponse 401 "Invalid username or password").
Proof.
  apply (login_unknown_role_rejected PasswordHasher.verify TokenIssuer.Token
           Sample.jwt_sign Sample.always Sample.module
           (mkLoginBody "mallory" "pw") Sample.db 2 Sample.mallory);
    try reflexivity; try exact I; discriminate.
Defined.


Lemma update_absent_user_witness :
  fst (update_route TokenIssuer.Token Sample.jwt_sign Sample.always Sample.module
         (mkUpdateBody "ghost" "Gh" "Ost" "Attic") Sample.db) =
    Resolved (MsgResponse 400 "Profile update failed") /\
  rows (snd (update_route TokenIssuer.Token Sample.jwt_sign Sample.always Sample.module
               (mkUpdateBody "ghost" "Gh" "Ost" "Attic") Sample.db)) = rows Sample.db.
Proof.
  destruct (update_absent_user TokenIssuer.Token Sample.jwt_sign Sample.always
              Sample.module (mkUpdateBody "ghost" "Gh" "Ost" "Attic") Sample.db
              eq_refl I eq_refl) as (_ & Hresp & _ & Hrows).
  split; [exact Hresp | exact Hrows].
Defined.

(** * Further properties of the services and handlers *)

(** ** Queries, once more *)

Lemma findOne_run (username0 : string) (db : Db) :
  answers db ->
  UserModel.findOne username0 db =
    (Resolved
       (match list_find (fun u => username u = username0) (rows db) with
        | Some (i, u) => Some {| pk := i; data := u |}
        | None => None
        end),
     after_query db).
Proof. apply findOne_answers. Qed.

Lemma findOne_fault (username0 : string) (db : Db) (e : JsError) (fs : list (option JsError)) :
  faults db = Some e :: fs ->
  UserModel.findOne username0 db = (Rejected e, {| rows := rows db; faults := fs |}).
Proof. intros H. unfold UserModel.findOne, query. now rewrite H. Qed.

Lemma save_run (user : Instance) (db : Db) :
  answers db ->
  UserModel.save user db =
    (Resolved tt,
     {| rows := <[pk user := data user]> (rows db); faults := tail (faults db) |}).
Proof.
  unfold answers, UserModel.save, query.
  destruct (faults db) as [|[e|] fs]; simpl; intros H;
    [reflexivity|contradiction|reflexivity].
Qed.

Lemma save_fault (user : Instance) (db : Db) (e : JsError) (fs : list (option JsError)) :
  faults db = Some e :: fs ->
  UserModel.save user db = (Rejected e, {| rows := rows db; faults := fs |}).
Proof. intros H. unfold UserModel.save, query. now rewrite H. Qed.

Lemma create_run (u : User) (db : Db) :
  answers db ->
  existsb (fun r => String.eqb (username r) (username u)) (rows db) = false ->
  existsb (fun r => String.eqb (email r) (email u)) (rows db) = false ->
  UserModel.create u db =
    (Resolved tt, {| rows := (rows db ++ [u])%list; faults := tail (faults db) |}).
Proof.
  unfold answers, UserModel.create, query. intros Ha Hu He.
  destruct (faults db) as [|[e|] fs]; simpl in *; try contradiction;
    now rewrite Hu, He.
Qed.

(** The lookup by username reads the username column only: writing back a row
    with the same username finds the same position, with the new columns. *)
Lemma list_find_username_insert (n : string) (rs : list User) (i : nat) (old new : User) :
  rs !! i = Some old ->
  username new = username old ->
  list_find (fun u => username u = n) (<[i := new]> rs) =
    match list_find (fun u => username u = n) rs with
    | Some (j, z) => Some (j, if decide (j = i) then new else z)
    | None => None
    end.
Proof.
  revert i. induction rs as [|x rs IH]; intros i Hl Hu; [discriminate|].
  destruct i as [|i]; simpl in *.
  - injection Hl as ->. rewrite Hu.
    destruct (decide (username old = n)); simpl; [reflexivity|].
    destruct (list_find _ rs) as [[j z]|]; reflexivity.
  - destruct (decide (username x = n)); simpl; [reflexivity|].
    rewrite (IH i Hl Hu).
    destruct (list_find _ rs) as [[j z]|]; simpl; [|reflexivity].
    destruct (decide (j = i)), (decide (S j = S i)); try reflexivity; lia.
Qed.

(** A username that no row has is not found, and conversely, whichever way
    absence is tested. *)
Lemma fresh_absent (n : string) (rs : list User) :
  existsb (fun r => String.eqb (username r) n) rs = false ->
  absent n rs.
Proof.
  unfold absent. induction rs as [|x rs IH]; simpl; [reflexivity|].
  intros H. apply orb_false_iff in H as (Hx & Hrs).
  apply String.eqb_neq in Hx.
  destruct (decide (username x = n)); [contradiction|].
  now rewrite (IH Hrs).
Qed.

(** ** The login handler *)

Section LoginHandler.

Variable comparePasswords : string -> string -> result bool.
Variable Token : Type.
Variable jwt_sign : JsObj -> option string -> result Token.
Variable loginValidation : LoginBody -> bool.
Variable module : RouterModule.

(** [loginUser] with its lookup answered: the result and the database left. *)
Lemma loginUser_run (username0 password : string) (db : Db) :
  answers db ->
  loginUser comparePasswords username0 password db =
    (match list_find (fun u => username u = username0) (rows db) with
     | None => Resolved JsFalse
     | Some (i, u) =>
         match comparePasswords (hashed_password u) password with
         | Resolved true => Resolved (Val {| pk := i; data := u |})
         | Resolved false => Resolved JsFalse
         | Rejected _ => Rejected (Error "Error logging in")
         end
     end, after_query db).
Proof.
  intros Ha. unfold loginUser, try_catch, bind.
  rewrite (findOne_run _ _ Ha).
  destruct (list_find _ (rows db)) as [[i u]|]; simpl; auto.
  unfold await.
  destruct (comparePasswords (hashed_password u) password) as [[|]|e]; reflexivity.
Qed.

Lemma loginUser_faulted (username0 password : string) (db : Db)
  (e : JsError) (fs : list (option JsError)) :
  faults db = Some e :: fs ->
  loginUser comparePasswords username0 password db =
    (Rejected (Error "Error logging in"), {| rows := rows db; faults := fs |}).
Proof.
  intros Hf. unfold loginUser, try_catch, bind.
  now rewrite (findOne_fault _ _ _ _ Hf).
Qed.

(** The handler leaves the database as [loginUser] left it, unless the request
    was invalid and nothing ran. *)
Lemma login_route_db (body : LoginBody) (db : Db) :
  snd (login_route comparePasswords Token jwt_sign loginValidation module body db) =
    if loginValidation body
    then snd (loginUser comparePasswords (login_username body) (login_password body) db)
    else db.
Proof.
  unfold login_route, try_catch, bind, await, ret.
  destruct (loginValidation body); simpl; [|reflexivity].
  destruct (loginUser _ _ _ db) as [[user|e] db1]; simpl; [|reflexivity].
  match goal with |- context [if ?b then _ else _] => destruct b end; [|reflexivity].
  destruct (jwt_sign _ _); reflexivity.
Qed.

Lemma loginUser_rows (username0 password : string) (db : Db) :
  rows (snd (loginUser comparePasswords username0 password db)) = rows db.
Proof.
  unfold loginUser, try_catch, bind.
  pose proof (findOne_rows username0 db) as Hr.
  destruct (UserModel.findOne username0 db) as [[[user|]|e] db1]; simpl in *; auto.
  unfold await.
  destruct (comparePasswords (hashed_password (data user)) password) as [[|]|e];
    simpl; auto.
Qed.

(** X1. A valid login for a stored user whose password verifies and whose role
    is "user" or "admin" is answered with status 200, the token [jwt.sign]
    returned for the claims, and a user structure holding the role, username,
    first name, last name, email and address of the stored row; the handler
    has made exactly one query. *)
Theorem login_success (body : LoginBody) (db : Db) (i : nat) (u : User) (token : Token) :
  loginValidation body = true ->
  answers db ->
  list_find (fun u => username u = login_username body) (rows db) = Some (i, u) ->
  comparePasswords (hashed_password u) (login_password body) = Resolved true ->
  role u = "user" \/ role u = "admin" ->
  jwt_sign [ ("role", VStr (role u)); ("username", VStr (username u));
             ("fname", VStr (fname u)); ("lname", VStr (lname u));
             ("email", VStr (email u)); ("address", VStr (address u)) ]
           (secretKey module) = Resolved token ->
  login_route comparePasswords Token jwt_sign loginValidation module body db =
    (Resolved
       (LoginResponse 200 token
          [ ("role", VStr (role u)); ("username", VStr (username u));
            ("fname", VStr (fname u)); ("lname", VStr (lname u));
            ("email", VStr (email u)); ("address", VStr (address u)) ]),
     after_query db).
Proof.
  intros Hv Ha Hf Hc Hr Hs.
  unfold login_route, try_catch, bind. rewrite Hv. simpl.
  rewrite (loginUser_run _ _ _ Ha), Hf, Hc. simpl.
  assert (Hvalid : String.eqb (role u) "admin" || String.eqb (role u) "user" = true).
  { destruct Hr as [-> | ->]; reflexivity. }
  rewrite Hvalid. unfold await, userData. simpl. now rewrite Hs.
Qed.

(** X2. A valid login is answered with status 401 "Invalid username or
    password" both when no row has the username and when the row is found but
    the password does not verify: the two failures get the same answer. *)
Theorem login_failure_is_401 (body : LoginBody) (db : Db) :
  loginValidation body = true ->
  answers db ->
  absent (login_username body) (rows db) \/
  (exists i u,
     list_find (fun u => username u = login_username body) (rows db) = Some (i, u) /\
     comparePasswords (hashed_password u) (login_password body) = Resolved false) ->
  login_route comparePasswords Token jwt_sign loginValidation module body db =
    (Resolved (ErrorResponse 401 "Invalid username or password"), after_query db).
Proof.
  intros Hv Ha H.
  unfold login_route, try_catch, bind. rewrite Hv. simpl.
  rewrite (loginUser_run _ _ _ Ha).
  destruct H as [Habs | (i & u & Hf & Hc)].
  - unfold absent in Habs. now rewrite Habs.
  - now rewrite Hf, Hc.
Qed.

(** X3. When the lookup fails in the database, or the password comparison
    rejects, [loginUser] throws "Error logging in" whatever the original error
    was, and the handler answers status 500 "Internal server error": nothing
    of the original error reaches the client. *)
Theorem login_fault_is_500 (body : LoginBody) (db : Db) :
  loginValidation body = true ->
  (exists e fs, faults db = Some e :: fs) \/
  (answers db /\
   exists i u e,
     list_find (fun u => username u = login_username body) (rows db) = Some (i, u) /\
     comparePasswords (hashed_password u) (login_password body) = Rejected e) ->
  fst (loginUser comparePasswords (login_username body) (login_password body) db) =
    Rejected (Error "Error logging in") /\
  fst (login_route comparePasswords Token jwt_sign loginValidation module body db) =
    Resolved (ErrorResponse 500 "Internal server error").
Proof.
  intros Hv H.
  assert (Hl : fst (loginUser comparePasswords (login_username body)
                      (login_password body) db) = Rejected (Error "Error logging in")).
  { destruct H as [(e & fs & Hf) | (Ha & i & u & e & Hf & Hc)].
    - now rewrite (loginUser_faulted _ _ _ _ _ Hf).
    - now rewrite (loginUser_run _ _ _ Ha), Hf, Hc. }
  split; [exact Hl|].
  rewrite login_route_response, Hv, Hl. reflexivity.
Qed.

(** X4. The login handler always sends a response, with status 200, 400, 401
    or 500, and never changes a row of the user table, whatever the request,
    the database state and the collaborators do. *)
Theorem login_always_answers (body : LoginBody) (db : Db) :
  exists r : Response Token,
    fst (login_route comparePasswords Token jwt_sign loginValidation module body db) =
      Resolved r /\
    (status_of r = 200 \/ status_of r = 400 \/ status_of r = 401 \/ status_of r = 500) /\
    rows (snd (login_route comparePasswords Token jwt_sign loginValidation module body db)) =
      rows db.
Proof.
  assert (Hrows : rows (snd (login_route comparePasswords Token jwt_sign loginValidation
                               module body db)) = rows db).
  { rewrite login_route_db. destruct (loginValidation body); [apply loginUser_rows | reflexivity]. }
  rewrite login_route_response.
  destruct (loginValidation body); simpl.
  2: { eexists; split; [reflexivity|]. simpl. auto. }
  destruct (fst (loginUser _ _ _ db)) as [user|e].
  2: { eexists; split; [reflexivity|]. simpl. auto 6. }
  match goal with |- context [if ?b then _ else _] => destruct b end.
  2: { eexists; split; [reflexivity|]. simpl. auto 6. }
  destruct (jwt_sign _ _); eexists; (split; [reflexivity|]); simpl; auto 6.
Qed.

End LoginHandler.

(** ** The register handler *)

Lemma register_error_cases (e : JsError) :
  register_error e = Error "Username already exists" \/
  register_error e = Error "Email already exists" \/
  register_error e = Error "Username or email already exists" \/
  register_error e = Error "Error registering user".
Proof.
  unfold register_error.
  destruct (String.eqb (name e) _); [|auto].
  destruct (fields_has e "username"); [auto|].
  destruct (fields_has e "email"); auto.
Qed.

Section RegisterHandler.

Variable hashPassword : string -> result string.
Variable comparePasswords : string -> string -> result bool.
Variable Token : Type.
Variable jwt_sign : JsObj -> option string -> result Token.
Variable loginValidation : LoginBody -> bool.
Variable registerValidation : RegisterBody -> bool.
Variable module : RouterModule.

(** X5. The register handler always sends a response, and it is one of five:
    400 validation failed, 201 created, 401 "Username already exists", 401
    "Email already exists", or 500 "Internal server error". In particular no
    request, database state or error is ever answered with
    "Email or username already exists". *)
Theorem register_responses (body : RegisterBody) (db : Db) :
  let r := fst (register_route hashPassword Token registerValidation body db) in
  r = Resolved (ErrorResponse 400 "Validation failed. Please check your inputs") \/
  r = Resolved (MsgResponse 201 "Account created successfully") \/
  r = Resolved (ErrorResponse 401 "Username already exists") \/
  r = Resolved (ErrorResponse 401 "Email already exists") \/
  r = Resolved (ErrorResponse 500 "Internal server error").
Proof.
  simpl. rewrite register_route_response.
  destruct (registerValidation body); simpl; [|auto].
  rewrite registerUser_result.
  destruct (hashPassword (reg_confirmPassword body)) as [h|e];
    [destruct (fst (UserModel.create _ db)) as [[]|e]; [auto|]|];
    destruct (register_error_cases e) as [-> | [-> | [-> | ->]]]; simpl; auto 6.
Qed.

(** X6. A valid registration whose password hashes to [h], whose username and
    email are in no row, and whose insert is answered, gets status 201, and
    the table gains exactly one row at its end: role "user", the request's
    username, [h] as password hash (the hash of confirmPassword), firstname
    and lastname as fname and lname, and the request's email and address. *)
Theorem register_success (body : RegisterBody) (db : Db) (h : string) :
  registerValidation body = true ->
  hashPassword (reg_confirmPassword body) = Resolved h ->
  answers db ->
  existsb (fun r => String.eqb (username r) (reg_username body)) (rows db) = false ->
  existsb (fun r => String.eqb (email r) (reg_email body)) (rows db) = false ->
  register_route hashPassword Token registerValidation body db =
    (Resolved (MsgResponse 201 "Account created successfully"),
     {| rows := (rows db ++
                 [mkUser "user" (reg_username body) h (reg_firstname body)
                    (reg_lastname body) (reg_email body) (reg_address body)])%list;
        faults := tail (faults db) |}).
Proof.
  intros Hv Hh Ha Hu He.
  unfold register_route, registerUser, try_catch, bind, await. rewrite Hv, Hh. simpl.
  rewrite (create_run _ _ Ha); auto.
Qed.

(** X7. Register, then log in: after a registration that succeeded, a valid
    login with the same username and a password that verifies against the
    stored hash is answered with status 200 and claims holding role "user" and
    the registered username, names, email and address. *)
Theorem register_then_login (body : RegisterBody) (db : Db) (h password : string)
  (token : Token) :
  registerValidation body = true ->
  hashPassword (reg_confirmPassword body) = Resolved h ->
  answers db ->
  answers (after_query db) ->
  existsb (fun r => String.eqb (username r) (reg_username body)) (rows db) = false ->
  existsb (fun r => String.eqb (email r) (reg_email body)) (rows db) = false ->
  loginValidation (mkLoginBody (reg_username body) password) = true ->
  comparePasswords h password = Resolved true ->
  jwt_sign [ ("role", VStr "user"); ("username", VStr (reg_username body));
             ("fname", VStr (reg_firstname body)); ("lname", VStr (reg_lastname body));
             ("email", VStr (reg_email body)); ("address", VStr (reg_address body)) ]
           (secretKey module) = Resolved token ->
  fst (login_route comparePasswords Token jwt_sign loginValidation module
         (mkLoginBody (reg_username body) password)
         (snd (register_route hashPassword Token registerValidation body db))) =
    Resolved
      (LoginResponse 200 token
         [ ("role", VStr "user"); ("username", VStr (reg_username body));
           ("fname", VStr (reg_firstname body)); ("lname", VStr (reg_lastname body));
           ("email", VStr (reg_email body)); ("address", VStr (reg_address body)) ]).
Proof.
  intros Hv Hh Ha Ha' Hu He Hlv Hc Hs.
  assert (Hreg : snd (register_route hashPassword Token registerValidation body db) =
            {| rows := (rows db ++
                        [mkUser "user" (reg_username body) h (reg_firstname body)
                           (reg_lastname body) (reg_email body) (reg_address body)])%list;
               faults := tail (faults db) |}).
  { unfold register_route, registerUser, try_catch, bind, await. rewrite Hv, Hh. simpl.
    rewrite (create_run _ _ Ha); auto. }
  rewrite Hreg, login_route_response, Hlv. simpl.
  rewrite loginUser_answers by exact Ha'. simpl.
  rewrite (list_find_app_r _ _ _ (fresh_absent _ _ Hu)). simpl.
  destruct (decide (reg_username body = reg_username body)); [|contradiction].
  simpl. rewrite Hc. simpl. unfold userData. simpl. now rewrite Hs.
Qed.

(** X8. When hashing the password fails, the register handler answers status
    500 "Internal server error" without having queried the database: the
    table and the pending faults are exactly as before. *)
Theorem register_hash_failure (body : RegisterBody) (db : Db) (e : JsError) :
  registerValidation body = true ->
  hashPassword (reg_confirmPassword body) = Rejected e ->
  name e <> "SequelizeUniqueConstraintError" ->
  registerUser hashPassword (reg_username body) (reg_confirmPassword body)
    (reg_firstname body) (reg_lastname body) (reg_email body) (reg_address body) db =
    (Rejected (Error "Error registering user"), db) /\
  register_route hashPassword Token registerValidation body db =
    (Resolved (ErrorResponse 500 "Internal server error"), db).
Proof.
  intros Hv Hh Hn. apply String.eqb_neq in Hn.
  unfold register_route, registerUser, try_catch, bind, await, throw.
  rewrite Hv, Hh. simpl. rewrite Hn. simpl. auto.
Qed.

End RegisterHandler.

(** ** The profile update service and handler *)

Lemma updateUserProfile_run (username0 firstname lastname address0 : string)
  (db : Db) (i : nat) (u : User) :
  answers db ->
  answers (after_query db) ->
  list_find (fun u => username u = username0) (rows db) = Some (i, u) ->
  updateUserProfile username0 firstname lastname address0 db =
    (Resolved (Val {| pk := i; data := updated u firstname lastname address0 |}),
     {| rows := <[i := updated u firstname lastname address0]> (rows db);
        faults := tail (tail (faults db)) |}).
Proof.
  intros Ha Ha' Hf. unfold updateUserProfile, try_catch, bind.
  rewrite (findOne_run _ _ Ha), Hf. simpl.
  rewrite (save_run _ _ Ha'). reflexivity.
Qed.

Lemma updateUserProfile_run_absent (username0 firstname lastname address0 : string)
  (db : Db) :
  answers db ->
  absent username0 (rows db) ->
  updateUserProfile username0 firstname lastname address0 db =
    (Resolved JsFalse, after_query db).
Proof.
  intros Ha Habs. unfold updateUserProfile, try_catch, bind.
  rewrite (findOne_run _ _ Ha). unfold absent in Habs. now rewrite Habs.
Qed.

Lemma quiet_answers (db : Db) : faults db = [] -> answers db.
Proof. unfold answers. now intros ->. Qed.

Lemma quiet_after_query (db : Db) :
  faults db = [] -> after_query db = {| rows := rows db; faults := [] |}.
Proof. unfold after_query. now intros ->. Qed.

(** X10. With no fault pending, applying the same profile update twice leaves
    the table as applying it once. *)
Theorem updateUserProfile_idempotent
  (username0 firstname lastname address0 : string) (db : Db) :
  faults db = [] ->
  rows (snd (updateUserProfile username0 firstname lastname address0
               (snd (updateUserProfile username0 firstname lastname address0 db)))) =
  rows (snd (updateUserProfile username0 firstname lastname address0 db)).
Proof.
  intros Hq. pose proof (quiet_answers _ Hq) as Ha.
  destruct (list_find (fun u => username u = username0) (rows db)) as [[i u]|] eqn:Hf.
  - assert (Ha' : answers (after_query db)) by (apply quiet_answers; simpl; now rewrite Hq).
    rewrite (updateUserProfile_run _ firstname lastname address0 _ _ _ Ha Ha' Hf).
    simpl. rewrite Hq. simpl.
    pose proof Hf as Hl. apply list_find_Some in Hl as (Hl & _ & _).
    pose proof (list_find_username_insert username0 (rows db) i u
                  (updated u firstname lastname address0) Hl eq_refl) as Hf'.
    rewrite Hf in Hf'. destruct (decide (i = i)); [|contradiction].
    erewrite updateUserProfile_run; [| exact I | exact I | exact Hf'].
    simpl. apply list_insert_insert_eq.
  - rewrite (updateUserProfile_run_absent _ _ _ _ _ Ha Hf).
    rewrite updateUserProfile_run_absent; [reflexivity | | exact Hf].
    apply quiet_answers. simpl. now rewrite Hq.
Qed.

(** X11. A profile update changes no login outcome: with no fault pending,
    every username and password is accepted for the same row, refused, or
    failed after the update exactly as before it. *)
Theorem update_keeps_login_outcome
  (comparePasswords : string -> string -> result bool)
  (username0 firstname lastname address0 : string)
  (login_name password : string) (db : Db) :
  faults db = [] ->
  logged_in (fst (loginUser comparePasswords login_name password
                    (snd (updateUserProfile username0 firstname lastname address0 db)))) =
  logged_in (fst (loginUser comparePasswords login_name password db)).
Proof.
  intros Hq. pose proof (quiet_answers _ Hq) as Ha.
  rewrite (loginUser_answers _ _ _ db Ha).
  destruct (list_find (fun u => username u = username0) (rows db)) as [[i u]|] eqn:Hf.
  - assert (Ha' : answers (after_query db)) by (apply quiet_answers; simpl; now rewrite Hq).
    rewrite (updateUserProfile_run _ firstname lastname address0 _ _ _ Ha Ha' Hf).
    rewrite loginUser_answers by (simpl; rewrite Hq; exact I). simpl.
    pose proof Hf as Hl. apply list_find_Some in Hl as (Hl & _ & _).
    rewrite (list_find_username_insert login_name (rows db) i u
               (updated u firstname lastname address0) Hl eq_refl).
    destruct (list_find (fun u => username u = login_name) (rows db))
      as [[j z]|] eqn:Hj; [|reflexivity].
    destruct (decide (j = i)) as [-> | Hne]; [|reflexivity].
    apply list_find_Some in Hj as (Hj & _ & _).
    assert (z = u) by congruence. subst z. simpl.
    destruct (comparePasswords (hashed_password u) password) as [[|]|e]; reflexivity.
  - rewrite (updateUserProfile_run_absent _ _ _ _ _ Ha Hf).
    rewrite loginUser_answers by (apply quiet_answers; simpl; now rewrite Hq).
    reflexivity.
Qed.

Section UpdateHandler.

Variable comparePasswords : string -> string -> result bool.
Variable Token : Type.
Variable jwt_sign : JsObj -> option string -> result Token.
Variable loginValidation : LoginBody -> bool.
Variable updateValidation : UpdateBody -> bool.
Variable module : RouterModule.


(** X9. A valid profile update for a stored user, with both queries answered
    and [jwt.sign] returning a token, is answered with status 200 "Profile
    updated successfully", that token, and claims holding the stored role,
    username and email together with the new first name, last name and
    address; the found row, and only it, is written back with the three new
    columns. *)
Theorem update_success (body : UpdateBody) (db : Db) (i : nat) (u : User) (token : Token) :
  updateValidation body = true ->
  answers db ->
  answers (after_query db) ->
  list_find (fun u => username u = upd_username body) (rows db) = Some (i, u) ->
  jwt_sign [ ("role", VStr (role u)); ("username", VStr (username u));
             ("fname", VStr (upd_firstname body)); ("lname", VStr (upd_lastname body));
             ("email", VStr (email u)); ("address", VStr (upd_address body)) ]
           (secretKey module) = Resolved token ->
  update_route Token jwt_sign updateValidation module body db =
    (Resolved
       (UpdateResponse 200 "Profile updated successfully" token
          [ ("role", VStr (role u)); ("username", VStr (username u));
            ("fname", VStr (upd_firstname body)); ("lname", VStr (upd_lastname body));
            ("email", VStr (email u)); ("address", VStr (upd_address body)) ]),
     {| rows := <[i := updated u (upd_firstname body) (upd_lastname body)
                          (upd_address body)]> (rows db);
        faults := tail (tail (faults db)) |}).
Proof.
  intros Hv Ha Ha' Hf Hs.
  unfold update_route, try_catch, bind. rewrite Hv. simpl.
  rewrite (updateUserProfile_run _ _ _ _ _ _ _ Ha Ha' Hf).
  unfold await, userData. simpl. now rewrite Hs.
Qed.

(** X12. When the database fails the lookup or the save of a valid profile
    update, the handler sends no response at all: its [catch] block throws a
    ReferenceError ("errorMessage is not defined") and the handler rejects.
    The table is left as it was. *)
Theorem update_fault_no_response (body : UpdateBody) (db : Db) :
  updateValidation body = true ->
  (exists e fs, faults db = Some e :: fs) \/
  (answers db /\
   (exists i u, list_find (fun u => username u = upd_username body) (rows db) = Some (i, u)) /\
   exists e fs, faults (after_query db) = Some e :: fs) ->
  fst (update_route Token jwt_sign updateValidation module body db) =
    Rejected (ReferenceError "errorMessage") /\
  rows (snd (update_route Token jwt_sign updateValidation module body db)) = rows db.
Proof.
  intros Hv H.
  unfold update_route, updateUserProfile, try_catch, bind, throw. rewrite Hv. simpl.
  destruct H as [(e & fs & Hf) | (Ha & (i & u & Hfind) & e & fs & Hf)].
  - rewrite (findOne_fault _ _ _ _ Hf). simpl. auto.
  - rewrite (findOne_run _ _ Ha), Hfind. simpl.
    erewrite save_fault by exact Hf. simpl. auto.
Qed.

(** X13. When a valid profile update has been saved and [jwt.sign] then throws,
    the handler sends no response (it rejects with the ReferenceError of its
    [catch] block), although the row has already been written with the new
    first name, last name and address. *)
Theorem update_saved_without_response
  (body : UpdateBody) (db : Db) (i : nat) (u : User) (e : JsError) :
  updateValidation body = true ->
  answers db ->
  answers (after_query db) ->
  list_find (fun u => username u = upd_username body) (rows db) = Some (i, u) ->
  jwt_sign [ ("role", VStr (role u)); ("username", VStr (username u));
             ("fname", VStr (upd_firstname body)); ("lname", VStr (upd_lastname body));
             ("email", VStr (email u)); ("address", VStr (upd_address body)) ]
           (secretKey module) = Rejected e ->
  fst (update_route Token jwt_sign updateValidation module body db) =
    Rejected (ReferenceError "errorMessage") /\
  rows (snd (update_route Token jwt_sign updateValidation module body db)) =
    <[i := updated u (upd_firstname body) (upd_lastname body) (upd_address body)]> (rows db).
Proof.
  intros Hv Ha Ha' Hf Hs.
  unfold update_route, try_catch, bind. rewrite Hv. simpl.
  rewrite (updateUserProfile_run _ _ _ _ _ _ _ Ha Ha' Hf).
  unfold await, userData, throw. simpl. rewrite Hs. simpl. auto.
Qed.


End UpdateHandler.

(** ** Registration, failures and the table *)

Section RegisterFailures.

Variable hashPassword : string -> result string.
Variable Token : Type.
Variable registerValidation : RegisterBody -> bool.

(** X15. When the insert of a valid registration is rejected with a
    SequelizeUniqueConstraintError, the answer is read off the error's fields:
    a truthy username field gives 401 "Username already exists" (also when an
    email field is present), otherwise a truthy email field gives 401 "Email
    already exists", otherwise the answer is 500 "Internal server error". The
    table is unchanged in all three cases. *)
Theorem register_unique_error_answers
  (body : RegisterBody) (db : Db) (h : string) (e : JsError) (fs : list (option JsError)) :
  registerValidation body = true ->
  hashPassword (reg_confirmPassword body) = Resolved h ->
  faults db = Some e :: fs ->
  name e = "SequelizeUniqueConstraintError" ->
  register_route hashPassword Token registerValidation body db =
    (Resolved
       (if fields_has e "username" then ErrorResponse 401 "Username already exists"
        else if fields_has e "email" then ErrorResponse 401 "Email already exists"
        else ErrorResponse 500 "Internal server error"),
     {| rows := rows db; faults := fs |}).
Proof.
  intros Hv Hh Hf Hn.
  unfold register_route, registerUser, try_catch, bind, await, throw, ret.
  rewrite Hv, Hh. simpl.
  unfold UserModel.create, query. rewrite Hf, Hn. simpl.
  destruct (fields_has e "username"); [reflexivity|].
  destruct (fields_has e "email"); reflexivity.
Qed.

(** X16. The register handler answers 201 exactly when a row was added: with
    status 201 the table has gained one row, of role "user", at its end; with
    any other answer the table is unchanged. *)
Theorem register_201_iff_row_added (body : RegisterBody) (db : Db) :
  let out := register_route hashPassword Token registerValidation body db in
  (fst out = Resolved (MsgResponse 201 "Account created successfully") ->
   exists u, rows (snd out) = (rows db ++ [u])%list /\ role u = "user" /\
             username u = reg_username body /\ email u = reg_email body) /\
  (fst out <> Resolved (MsgResponse 201 "Account created successfully") ->
   rows (snd out) = rows db).
Proof.
  unfold register_route, registerUser, try_catch, bind, await, throw, ret.
  destruct (registerValidation body); simpl; [|split; [discriminate|reflexivity]].
  destruct (hashPassword (reg_confirmPassword body)) as [h|e]; simpl.
  - unfold UserModel.create, query.
    destruct (faults db) as [|[e|] fs]; simpl;
      repeat match goal with
        | |- context [if ?b then _ else _] => destruct b; simpl
        end;
      (split; [ try discriminate | try reflexivity ]);
      try (intros _; eexists; split; [reflexivity | simpl; auto]);
      try (intros H; contradiction H; reflexivity).
  - repeat match goal with
      | |- context [if ?b then _ else _] => destruct b; simpl
      end; (split; [discriminate|reflexivity]).
Qed.

End RegisterFailures.

(** ** Concrete runs of the further properties *)

Lemma login_success_witness :
  fst (Runs.login (mkLoginBody "root" "toor") Sample.db) =
    Resolved
      (LoginResponse 200
         (TokenIssuer.mkToken
            [ ("role", VStr "admin"); ("username", VStr "root"); ("fname", VStr "Ro");
              ("lname", VStr "Ot"); ("email", VStr "root@x.com"); ("address", VStr "HQ") ]
            "s3cret/root")
         [ ("role", VStr "admin"); ("username", VStr "root"); ("fname", VStr "Ro");
           ("lname", VStr "Ot"); ("email", VStr "root@x.com"); ("address", VStr "HQ") ]).
Proof.
  exact (f_equal fst
           (login_success PasswordHasher.verify TokenIssuer.Token Sample.jwt_sign
              Sample.always Sample.module (mkLoginBody "root" "toor") Sample.db
              1 Sample.root _ eq_refl I eq_refl eq_refl (or_intror eq_refl) eq_refl)).
Defined.

Lemma login_failure_is_401_witness :
  Runs.login (mkLoginBody "ghost" "boo") Sample.db =
    (Resolved (ErrorResponse 401 "Invalid username or password"), Sample.db) /\
  Runs.login (mkLoginBody "alice" "wrong") Sample.db =
    (Resolved (ErrorResponse 401 "Invalid username or password"), Sample.db).
Proof.
  split.
  - exact (login_failure_is_401 PasswordHasher.verify TokenIssuer.Token Sample.jwt_sign
             Sample.always Sample.module (mkLoginBody "ghost" "boo") Sample.db
             eq_refl I (or_introl eq_refl)).
  - exact (login_failure_is_401 PasswordHasher.verify TokenIssuer.Token Sample.jwt_sign
             Sample.always Sample.module (mkLoginBody "alice" "wrong") Sample.db
             eq_refl I
             (or_intror (ex_intro _ 0 (ex_intro _ Sample.alice (conj eq_refl eq_refl))))).
Defined.

Lemma login_fault_is_500_witness :
  fst (Runs.login (mkLoginBody "alice" "secret1") Runs.down) =
    Resolved (ErrorResponse 500 "Internal server error").
Proof.
  exact (proj2
           (login_fault_is_500 PasswordHasher.verify TokenIssuer.Token Sample.jwt_sign
              Sample.always Sample.module (mkLoginBody "alice" "secret1") Runs.down
              eq_refl
              (or_introl (ex_intro _ (Error "connection lost") (ex_intro _ [] eq_refl))))).
Defined.

Lemma register_success_witness :
  Runs.register Runs.bob Sample.db =
    (Resolved (MsgResponse 201 "Account created successfully"),
     {| rows := [Sample.alice; Sample.root; Sample.mallory;
                 mkUser "user" "bob" "$digest$pw" "Bob" "Ray" "bob@x.com" "Addr9"];
        faults := [] |}).
Proof.
  exact (register_success PasswordHasher.hash TokenIssuer.Token Sample.always
           Runs.bob Sample.db "$digest$pw" eq_refl eq_refl I eq_refl eq_refl).
Defined.

Lemma register_then_login_witness :
  fst (Runs.login (mkLoginBody "bob" "pw") (snd (Runs.register Runs.bob Sample.db))) =
    Resolved
      (LoginResponse 200
         (TokenIssuer.mkToken
            [ ("role", VStr "user"); ("username", VStr "bob"); ("fname", VStr "Bob");
              ("lname", VStr "Ray"); ("email", VStr "bob@x.com"); ("address", VStr "Addr9") ]
            "s3cret/bob")
         [ ("role", VStr "user"); ("username", VStr "bob"); ("fname", VStr "Bob");
           ("lname", VStr "Ray"); ("email", VStr "bob@x.com"); ("address", VStr "Addr9") ]).
Proof.
  exact (register_then_login PasswordHasher.hash PasswordHasher.verify TokenIssuer.Token
           Sample.jwt_sign Sample.always Sample.always Sample.module
           Runs.bob Sample.db "$digest$pw" "pw" _
           eq_refl eq_refl I I eq_refl eq_refl eq_refl eq_refl eq_refl).
Defined.

Lemma register_hash_failure_witness :
  register_route (fun _ => Rejected (Error "out of memory")) TokenIssuer.Token
    Sample.always Runs.bob Runs.down =
    (Resolved (ErrorResponse 500 "Internal server error"), Runs.down).
Proof.
  refine (proj2
            (register_hash_failure (fun _ => Rejected (Error "out of memory"))
               TokenIssuer.Token Sample.always Runs.bob Runs.down
               (Error "out of memory") eq_refl eq_refl _)).
  discriminate.
Defined.

Lemma update_success_witness :
  Runs.update Runs.alicia Sample.db =
    (Resolved
       (UpdateResponse 200 "Profile updated successfully"
          (TokenIssuer.mkToken
             [ ("role", VStr "user"); ("username", VStr "alice"); ("fname", VStr "Alicia");
               ("lname", VStr "Lee"); ("email", VStr "alice@x.com");
               ("address", VStr "Addr2") ]
             "s3cret/alice")
          [ ("role", VStr "user"); ("username", VStr "alice"); ("fname", VStr "Alicia");
            ("lname", VStr "Lee"); ("email", VStr "alice@x.com");
            ("address", VStr "Addr2") ]),
     {| rows := [mkUser "user" "alice" "$digest$secret1" "Alicia" "Lee" "alice@x.com" "Addr2";
                 Sample.root; Sample.mallory];
        faults := [] |}).
Proof.
  exact (update_success TokenIssuer.Token Sample.jwt_sign Sample.always Sample.module
           Runs.alicia Sample.db 0 Sample.alice _ eq_refl I I eq_refl eq_refl).
Defined.

Lemma updateUserProfile_idempotent_witness :
  rows (snd (updateUserProfile "alice" "Alicia" "Lee" "Addr2"
               (snd (updateUserProfile "alice" "Alicia" "Lee" "Addr2" Sample.db)))) =
  rows (snd (updateUserProfile "alice" "Alicia" "Lee" "Addr2" Sample.db)).
Proof.
  exact (updateUserProfile_idempotent "alice" "Alicia" "Lee" "Addr2" Sample.db eq_refl).
Defined.

Lemma update_keeps_login_outcome_witness :
  logged_in (fst (loginUser PasswordHasher.verify "alice" "secret1"
                    (snd (updateUserProfile "alice" "Alicia" "Lee" "Addr2" Sample.db)))) =
  Resolved (Val 0).
Proof.
  exact (update_keeps_login_outcome PasswordHasher.verify "alice" "Alicia" "Lee" "Addr2"
           "alice" "secret1" Sample.db eq_refl).
Defined.

Lemma update_fault_no_response_witness :
  fst (Runs.update Runs.alicia Runs.down) = Rejected (ReferenceError "errorMessage") /\
  rows (snd (Runs.update Runs.alicia Runs.down)) = rows Sample.db.
Proof.
  exact (update_fault_no_response TokenIssuer.Token Sample.jwt_sign Sample.always
           Sample.module Runs.alicia Runs.down eq_refl
           (or_introl (ex_intro _ (Error "connection lost") (ex_intro _ [] eq_refl)))).
Defined.

Lemma update_saved_without_response_witness :
  fst (update_route TokenIssuer.Token Sample.jwt_sign Sample.always
         {| secretKey := None |} Runs.alicia Sample.db) =
    Rejected (ReferenceError "errorMessage") /\
  rows (snd (update_route TokenIssuer.Token Sample.jwt_sign Sample.always
               {| secretKey := None |} Runs.alicia Sample.db)) =
    [mkUser "user" "alice" "$digest$secret1" "Alicia" "Lee" "alice@x.com" "Addr2";
     Sample.root; Sample.mallory].
Proof.
  exact (update_saved_without_response TokenIssuer.Token Sample.jwt_sign Sample.always
           {| secretKey := None |} Runs.alicia Sample.db 0 Sample.alice
           (Error "secretOrPrivateKey must have a value")
           eq_refl I I eq_refl eq_refl).
Defined.


Lemma register_unique_error_answers_witness :
  Runs.register Runs.bob
    (Runs.refused [("username", VStr "bob"); ("email", VStr "bob@x.com")]) =
    (Resolved (ErrorResponse 401 "Username already exists"), Sample.db) /\
  Runs.register Runs.bob
    (Runs.refused [("username", VStr ""); ("email", VStr "bob@x.com")]) =
    (Resolved (ErrorResponse 401 "Email already exists"), Sample.db).
Proof.
  split.
  - exact (register_unique_error_answers PasswordHasher.hash TokenIssuer.Token
             Sample.always Runs.bob
             (Runs.refused [("username", VStr "bob"); ("email", VStr "bob@x.com")])
             "$digest$pw"
             (UserModel.UniqueConstraintError
                [("username", VStr "bob"); ("email", VStr "bob@x.com")])
             [] eq_refl eq_refl eq_refl eq_refl).
  - exact (register_unique_error_answers PasswordHasher.hash TokenIssuer.Token
             Sample.always Runs.bob
             (Runs.refused [("username", VStr ""); ("email", VStr "bob@x.com")])
             "$digest$pw"
             (UserModel.UniqueConstraintError
                [("username", VStr ""); ("email", VStr "bob@x.com")])
             [] eq_refl eq_refl eq_refl eq_refl).
Defined.

Lemma register_201_iff_row_added_witness :
  (exists u, rows (snd (Runs.register Runs.bob Sample.db)) = (rows Sample.db ++ [u])%list /\
             role u = "user" /\ username u = "bob" /\ email u = "bob@x.com") /\
  rows (snd (Runs.register Runs.bob Runs.down)) = rows Sample.db.
Proof.
  split.
  - exact (proj1 (register_201_iff_row_added PasswordHasher.hash TokenIssuer.Token
                    Sample.always Runs.bob Sample.db) eq_refl).
  - refine (proj2 (register_201_iff_row_added PasswordHasher.hash TokenIssuer.Token
                     Sample.always Runs.bob Runs.down) _).
    discriminate.
Defined.
